(** * PhysicAI-Therapy: the exercise recommendation engine of backend/app.py

    A shallow embedding of [ExerciseRecommendationEngine]: the relevance
    filter, the intensity classifier, the two suitability tables, the
    weighted scoring function and the two recommendation assemblers.

    Modelling choices.
    - Python [str] is a [string] of 8-bit characters; [str.lower] acts on
      the letters A-Z. No statement below depends on how [lower] treats a
      character outside ASCII.
    - Python [float] is IEEE 754 binary64 with round-to-nearest-even, which
      is what the kernel's primitive [float] implements; every decimal
      literal denotes the nearest binary64 value, as in Python.
    - The suitability ranges are Python dicts [Dict[str, Any]]: association
      lists from keys to values that are an int or a list of ints. A
      subscript on a missing key raises [KeyError], a comparison or a
      membership test on a value of the wrong kind raises [TypeError]; both
      are results of the [result] monad.
    - [self.exercises] is the [catalog] argument of the functions that read
      it. Logging and the TF-IDF vectors take no part in any result. *)

From Stdlib Require Import ZArith String Ascii List Bool Lia.
From Stdlib Require Import Floats DecimalString Permutation Sorted.
Import ListNotations.

Set Warnings "-inexact-float".

Local Open Scope string_scope.
Local Open Scope Z_scope.

(** ** Python strings *)

Definition ascii_lower (c : ascii) : ascii :=
  let n := nat_of_ascii c in
  if (Nat.leb 65 n && Nat.leb n 90)%bool then ascii_of_nat (n + 32) else c.

(** [s.lower()] *)
Fixpoint lower (s : string) : string :=
  match s with
  | EmptyString => EmptyString
  | String c s' => String (ascii_lower c) (lower s')
  end.

(** [sub in s] on strings: [sub] occurs in [s] as a contiguous substring. *)
Fixpoint contains (sub s : string) : bool :=
  if String.prefix sub s then true
  else match s with
       | EmptyString => false
       | String _ s' => contains sub s'
       end.

(** [x in [s1, ..., sn]] and [x in {s1, ..., sn}] on strings. *)
Definition str_in (x : string) (l : list string) : bool :=
  existsb (String.eqb x) l.

(** [any(word in s for word in words)] *)
Definition any_word_in (words : list string) (s : string) : bool :=
  existsb (fun word => contains word s) words.

(** Truth value of an [Optional[str]]: [None] and [''] are false. *)
Definition truthy (o : option string) : bool :=
  match o with
  | Some (String _ _) => true
  | _ => false
  end.

(** [str(n)] for an int. *)
Definition str_of_int (n : Z) : string :=
  NilZero.string_of_int (Z.to_int n).

(** ** Exceptions *)

Inductive exn : Set :=
| KeyError (key : string)
| TypeError.

Inductive result (A : Type) : Type :=
| Ok (a : A)
| Raise (e : exn).

Arguments Ok {A} a.
Arguments Raise {A} e.

Definition bind {A B : Type} (m : result A) (k : A -> result B) : result B :=
  match m with
  | Ok a => k a
  | Raise e => Raise e
  end.

Notation "x <- m ;; k" := (bind m (fun x => k))
  (at level 61, m at next level, right associativity).

(** A for loop that appends [f x] for every [x], stopping at the first
    exception. *)
Fixpoint mapM {A B : Type} (f : A -> result B) (l : list A) : result (list B) :=
  match l with
  | [] => Ok []
  | x :: l' => y <- f x ;; ys <- mapM f l' ;; Ok (y :: ys)
  end.

(** ** Python dicts with string keys *)

Inductive pyval : Set :=
| PyInt (n : Z)
| PyList (l : list Z).

Fixpoint assoc {V : Type} (key : string) (d : list (string * V)) : option V :=
  match d with
  | [] => None
  | (k, v) :: d' => if String.eqb key k then Some v else assoc key d'
  end.

Definition dict : Set := list (string * pyval).

(** [d[key]] *)
Definition getitem (d : dict) (key : string) : result pyval :=
  match assoc key d with
  | Some v => Ok v
  | None => Raise (KeyError key)
  end.

(** [d.get(key, default)] *)
Definition dict_get {V : Type} (d : list (string * V)) (key : string) (default : V) : V :=
  match assoc key d with
  | Some v => v
  | None => default
  end.

(** [v <= n] where [n] is an int *)
Definition val_le_int (v : pyval) (n : Z) : result bool :=
  match v with
  | PyInt m => Ok (m <=? n)
  | PyList _ => Raise TypeError
  end.

(** [n <= v] where [n] is an int *)
Definition int_le_val (n : Z) (v : pyval) : result bool :=
  match v with
  | PyInt m => Ok (n <=? m)
  | PyList _ => Raise TypeError
  end.

(** [n in v] where [n] is an int *)
Definition int_in_val (n : Z) (v : pyval) : result bool :=
  match v with
  | PyList l => Ok (existsb (Z.eqb n) l)
  | PyInt _ => Raise TypeError
  end.

(** [lo <= n <= hi], a chained comparison: [hi] is evaluated only when the
    first comparison holds. *)
Definition chained_le (lo : result pyval) (n : Z) (hi : result pyval) : result bool :=
  a <- lo ;;
  c <- val_le_int a n ;;
  if c then (b <- hi ;; int_le_val n b) else Ok false.

(** ** Data model *)

(** The fields are those of the dataclass. [category] and [equipment] are
    options: the loader stores whatever the JSON holds, [None] included,
    and the engine guards every use of the two with a truth test. *)
Record Exercise : Type := {
  id : string;
  name : string;
  force : option string;
  level : string;
  mechanic : option string;
  equipment : option string;
  primaryMuscles : list string;
  secondaryMuscles : list string;
  instructions : list string;
  category : option string;
  images : list string
}.

Record UserProfile : Type := {
  pain_level : Z;
  mobility_level : Z;
  condition : string;
  goals : list string
}.

Record RecommendationScore : Type := {
  exercise : Exercise;
  score : float;
  reasons : list string;
  warnings : list string;
  suitability : string
}.

(** [ex.category.lower() if ex.category else ''] *)
Definition category_lower (ex : Exercise) : string :=
  match category ex with
  | Some c => if truthy (Some c) then lower c else ""
  | None => ""
  end.

(** ** filter_pt_relevant *)

Definition pt_categories : list string :=
  ["strength"; "stretching"; "cardio"; "plyometrics";
   "strongman"; "olympic weightlifting"; "powerlifting"].

Definition pt_equipment : list string :=
  ["body only"; "dumbbell"; "resistance band"; "foam roll";
   "stability ball"; "medicine ball"; "kettlebell"; "barbell";
   "cable"; "e-z curl bar"; "other"].

Definition excluded_equipment : list string :=
  ["machine"; "leverage machine"; "sled machine"; "stepmill machine"].

(** The body of the loop: [false] where the loop says [continue]. *)
Definition pt_relevant (ex : Exercise) : bool :=
  if (truthy (category ex) && negb (str_in (category_lower ex) pt_categories))%bool
  then false
  else
    match equipment ex with
    | Some eq =>
        if truthy (Some eq) then
          if str_in (lower eq) excluded_equipment then false
          else if negb (str_in (lower eq) pt_equipment) then false
          else true
        else true
    | None => true
    end.

Definition filter_pt_relevant (catalog : list Exercise) : list Exercise :=
  filter pt_relevant catalog.

(** ** calculate_intensity *)

Definition level_map : list (string * string) :=
  [("beginner", "low"); ("intermediate", "moderate");
   ("advanced", "high"); ("expert", "very-high")].

Definition calculate_intensity (ex : Exercise) : string :=
  let name_lower := lower (name ex) in
  let category_lower := category_lower ex in
  if any_word_in ["jump"; "explosive"; "plyometric"; "sprint"; "burpee"] name_lower
  then "very-high"
  else if any_word_in ["squat"; "deadlift"; "press"; "pull"; "push"; "weight"; "heavy"] name_lower
  then "high"
  else if str_in category_lower ["strength"; "powerlifting"]
  then "high"
  else if any_word_in ["bridge"; "plank"; "lunge"; "step"; "walk"] name_lower
  then "moderate"
  else if str_in category_lower ["cardio"; "olympic weightlifting"]
  then "moderate"
  else if any_word_in ["stretch"; "gentle"; "slow"; "breathing"] name_lower
  then "low"
  else if str_in category_lower ["stretching"; "flexibility"; "mobility"]
  then "low"
  else if any_word_in ["passive"; "rest"; "meditation"; "mindfulness"] name_lower
  then "very-low"
  else dict_get level_map (level ex) "moderate".

(** ** get_pain_suitability *)

Definition default_range : dict :=
  [("min", PyInt 1); ("max", PyInt 10); ("optimal", PyList [5])].

Definition pain_intensity_ranges : list (string * dict) :=
  [("very-low", [("min", PyInt 8); ("max", PyInt 10); ("optimal", PyList [9; 10])]);
   ("low", [("min", PyInt 5); ("max", PyInt 10); ("optimal", PyList [6; 7; 8])]);
   ("moderate", [("min", PyInt 2); ("max", PyInt 7); ("optimal", PyList [3; 4; 5])]);
   ("high", [("min", PyInt 1); ("max", PyInt 4); ("optimal", PyList [1; 2; 3])]);
   ("very-high", [("min", PyInt 1); ("max", PyInt 2); ("optimal", PyList [1])])].

(** The table lookup of [get_pain_suitability], by tier. *)
Definition pain_range (intensity : string) : dict :=
  dict_get pain_intensity_ranges intensity default_range.

Definition get_pain_suitability (ex : Exercise) (user_pain : Z) : dict :=
  let intensity := calculate_intensity ex in
  pain_range intensity.

(** ** get_mobility_suitability *)

Definition mobility_intensity_ranges : list (string * dict) :=
  [("very-low", [("min", PyInt 1); ("max", PyInt 10); ("optimal", PyList [2; 3; 4])]);
   ("low", [("min", PyInt 2); ("max", PyInt 10); ("optimal", PyList [3; 4; 5])]);
   ("moderate", [("min", PyInt 4); ("max", PyInt 10); ("optimal", PyList [5; 6; 7])]);
   ("high", [("min", PyInt 6); ("max", PyInt 10); ("optimal", PyList [7; 8; 9])]);
   ("very-high", [("min", PyInt 8); ("max", PyInt 10); ("optimal", PyList [9; 10])])].

(** The body of [get_mobility_suitability] once [category] and [intensity]
    are known. *)
Definition mobility_range (category intensity : string) : dict :=
  if str_in category ["stretching"; "mobility"; "flexibility"]
  then [("min", PyInt 1); ("max", PyInt 10); ("optimal", PyList [2; 3; 4; 5])]
  else if String.eqb category "balance"
  then [("min", PyInt 3); ("max", PyInt 10); ("optimal", PyList [4; 5; 6; 7])]
  else if String.eqb category "strength"
  then [("min", PyInt 4); ("max", PyInt 10); ("optimal", PyList [5; 6; 7; 8])]
  else if String.eqb category "cardio"
  then [("min", PyInt 6); ("max", PyInt 10); ("optimal", PyList [7; 8; 9; 10])]
  else dict_get mobility_intensity_ranges intensity default_range.

Definition get_mobility_suitability (ex : Exercise) (user_mobility : Z) : dict :=
  let intensity := calculate_intensity ex in
  let category := category_lower ex in
  mobility_range category intensity.

(** ** get_therapeutic_benefits *)

Definition get_therapeutic_benefits (ex : Exercise) : list string :=
  let name_lower := lower (name ex) in
  let category := category_lower ex in
  let benefits : list string := [] in
  let benefits :=
    if (String.eqb category "stretching" || contains "stretch" name_lower)%bool
    then (benefits ++ ["improves flexibility"; "reduces muscle tension"; "increases range of motion"])%list
    else benefits in
  let benefits :=
    if (String.eqb category "mobility" || contains "mobility" name_lower)%bool
    then (benefits ++ ["enhances joint mobility"; "improves movement quality"; "reduces stiffness"])%list
    else benefits in
  let benefits :=
    if (String.eqb category "strength" || contains "strength" name_lower)%bool
    then (benefits ++ ["builds muscle strength"; "improves stability"; "supports joint health"])%list
    else benefits in
  let benefits :=
    if (String.eqb category "balance" || contains "balance" name_lower)%bool
    then (benefits ++ ["improves balance"; "enhances proprioception"; "reduces fall risk"])%list
    else benefits in
  let benefits :=
    if (String.eqb category "cardio" || contains "cardio" name_lower)%bool
    then (benefits ++ ["improves cardiovascular health"; "increases endurance"; "boosts energy"])%list
    else benefits in
  let benefits :=
    if (contains "gentle" name_lower || contains "soft" name_lower)%bool
    then (benefits ++ ["pain relief"; "muscle relaxation"; "stress reduction"])%list
    else benefits in
  benefits.

(** ** Python floats *)

(** [float(n)] for an int [n] with [0 <= n < 2^53] (exact there). *)
Definition float_of_int (n : Z) : float :=
  PrimFloat.of_uint63 (Uint63.of_Z n).

(** [min(a, b)] on floats: the first argument unless the second is smaller. *)
Definition py_min (a b : float) : float :=
  if (b <? a)%float then b else a.

(** [n / d] rounded to the nearest integer, a tie going to the even one. *)
Definition div_half_even (n d : Z) : Z :=
  let q := n / d in
  let r := n mod d in
  if 2 * r <? d then q
  else if d <? 2 * r then q + 1
  else if Z.even q then q else q + 1.

(** [k / 100] as a float: the binary64 value nearest to the decimal with
    [k] hundredths (both operands are exact and the division is correctly
    rounded), for [0 <= k < 2^53]. *)
Definition cents (k : Z) : float :=
  (float_of_int k / 100)%float.

(** [round(x, 2)]: CPython rounds the exact binary value of [x] to two
    decimals, a tie going to the even digit, and returns the float nearest
    to that decimal. A float with no fractional bit, an infinity, a NaN and
    a zero are returned unchanged. Exact for [|x| < 2^46]. *)
Definition round2 (x : float) : float :=
  match Prim2SF x with
  | S754_finite s m e =>
      if 0 <=? e then x
      else
        let k := div_half_even (Z.pos m * 100) (2 ^ (- e)) in
        if s then (- cents k)%float else cents k
  | _ => x
  end.

(** ** calculate_recommendation_score *)

Notation "' pat <- m ;; k" := (bind m (fun x => match x with pat => k end))
  (at level 61, pat pattern, m at next level, right associativity).

(** Pain level scoring (40% weight): the pain sub-score with the updated
    [reasons] and [warnings]. *)
Definition pain_level_scoring (ex : Exercise) (user : UserProfile)
    (reasons warnings : list string) : result (float * list string * list string) :=
  let pain_suitability := get_pain_suitability ex (pain_level user) in
  in_range <- chained_le (getitem pain_suitability "min") (pain_level user)
                         (getitem pain_suitability "max") ;;
  if in_range then
    let pain_score := 0.8%float in
    let reasons :=
      (reasons ++ [("Suitable for your pain level (" ++ str_of_int (pain_level user) ++ "/10)")%string])%list in
    optimal <- getitem pain_suitability "optimal" ;;
    is_optimal <- int_in_val (pain_level user) optimal ;;
    if is_optimal
    then Ok (1.0%float, (reasons ++ ["Optimal for your current pain level"])%list, warnings)
    else Ok (pain_score, reasons, warnings)
  else
    Ok (0.1%float, reasons,
        (warnings ++ [("May not be suitable for your pain level (" ++ str_of_int (pain_level user) ++ "/10)")%string])%list).

(** Mobility level scoring (30% weight). *)
Definition mobility_level_scoring (ex : Exercise) (user : UserProfile)
    (reasons warnings : list string) : result (float * list string * list string) :=
  let mobility_suitability := get_mobility_suitability ex (mobility_level user) in
  in_range <- chained_le (getitem mobility_suitability "min") (mobility_level user)
                         (getitem mobility_suitability "max") ;;
  if in_range then
    let mobility_score := 0.8%float in
    let reasons :=
      (reasons ++ [("Appropriate for your mobility level (" ++ str_of_int (mobility_level user) ++ "/10)")%string])%list in
    optimal <- getitem mobility_suitability "optimal" ;;
    is_optimal <- int_in_val (mobility_level user) optimal ;;
    if is_optimal
    then Ok (1.0%float, (reasons ++ ["Perfect match for your mobility level"])%list, warnings)
    else Ok (mobility_score, reasons, warnings)
  else
    Ok (0.1%float, reasons,
        (warnings ++ [("May be too challenging for your mobility level (" ++ str_of_int (mobility_level user) ++ "/10)")%string])%list).

(** The test of the condition loop:
    [condition_lower in muscle.lower() or muscle.lower() in condition_lower]. *)
Definition muscle_matches (condition_lower muscle : string) : bool :=
  (contains condition_lower (lower muscle) || contains (lower muscle) condition_lower)%bool.

(** The loop over [all_muscles], with its [break] at the first match. *)
Fixpoint condition_loop (user : UserProfile) (condition_lower : string)
    (all_muscles : list string) (condition_score : float) (reasons : list string)
    : float * list string :=
  match all_muscles with
  | [] => (condition_score, reasons)
  | muscle :: rest =>
      if muscle_matches condition_lower muscle
      then (1.0%float,
            (reasons ++ [("Specifically targets your " ++ condition user ++ " condition")%string])%list)
      else condition_loop user condition_lower rest condition_score reasons
  end.

(** Condition matching (20% weight). *)
Definition condition_matching (ex : Exercise) (user : UserProfile)
    (reasons : list string) : float * list string :=
  let condition_lower := lower (condition user) in
  let all_muscles := (primaryMuscles ex ++ secondaryMuscles ex)%list in
  let condition_score := 0.5%float in
  condition_loop user condition_lower all_muscles condition_score reasons.

(** Therapeutic benefits (10% weight). *)
Definition therapeutic_benefits_scoring (ex : Exercise) (reasons : list string)
    : float * list string :=
  let benefits := get_therapeutic_benefits ex in
  let len := Z.of_nat (length benefits) in
  let benefit_score := py_min (float_of_int len * 0.2)%float 1.0%float in
  let reasons :=
    match benefits with
    | [] => reasons
    | _ :: _ =>
        (reasons ++ [("Provides " ++ str_of_int len ++ " therapeutic benefit"
                        ++ (if (1 <? len)%Z then "s" else ""))%string])%list
    end in
  (benefit_score, reasons).

(** Determine suitability: the if/elif chain over the unrounded score. *)
Definition determine_suitability (score : float) : string :=
  if (0.9 <=? score)%float then "excellent"
  else if (0.7 <=? score)%float then "good"
  else if (0.5 <=? score)%float then "moderate"
  else if (0.3 <=? score)%float then "poor"
  else "contraindicated".

Definition calculate_recommendation_score (ex : Exercise) (user : UserProfile)
    : result RecommendationScore :=
  let reasons : list string := [] in
  let warnings : list string := [] in
  let score := 0.0%float in
  '(pain_score, reasons, warnings) <- pain_level_scoring ex user reasons warnings ;;
  let score := (score + pain_score * 0.4)%float in
  '(mobility_score, reasons, warnings) <- mobility_level_scoring ex user reasons warnings ;;
  let score := (score + mobility_score * 0.3)%float in
  let '(condition_score, reasons) := condition_matching ex user reasons in
  let score := (score + condition_score * 0.2)%float in
  let '(benefit_score, reasons) := therapeutic_benefits_scoring ex reasons in
  let score := (score + benefit_score * 0.1)%float in
  let suitability := determine_suitability score in
  Ok {| exercise := ex;
        score := round2 score;
        reasons := reasons;
        warnings := warnings;
        suitability := suitability |}.

(** ** get_recommendations and get_stretching_recommendations *)

(** [l.sort(key=lambda x: x.score, reverse=True)]: Python's sort compares
    keys with [<] only and, reversed or not, keeps entries of equal key in
    their original order. [insert_desc] puts [x], which stood before every
    entry of [l], in front of the first entry whose key is not greater. *)
Fixpoint insert_desc (x : RecommendationScore) (l : list RecommendationScore)
    : list RecommendationScore :=
  match l with
  | [] => [x]
  | y :: l' =>
      if (score x <? score y)%float then y :: insert_desc x l'
      else x :: y :: l'
  end.

Fixpoint sort_by_score_desc (l : list RecommendationScore) : list RecommendationScore :=
  match l with
  | [] => []
  | x :: l' => insert_desc x (sort_by_score_desc l')
  end.

(** [l[:limit]]: a negative [limit] counts from the end. *)
Definition slice_to {A : Type} (limit : Z) (l : list A) : list A :=
  if limit <? 0
  then firstn (Z.to_nat (Z.max 0 (Z.of_nat (length l) + limit))) l
  else firstn (Z.to_nat limit) l.

(** [s.suitability != 'contraindicated'] *)
Definition not_contraindicated (s : RecommendationScore) : bool :=
  negb (String.eqb (suitability s) "contraindicated").

Definition get_recommendations (catalog : list Exercise) (user : UserProfile) (limit : Z)
    : result (list RecommendationScore) :=
  let pt_exercises := filter_pt_relevant catalog in
  scored_exercises <- mapM (fun exercise => calculate_recommendation_score exercise user)
                           pt_exercises ;;
  let safe_exercises := filter not_contraindicated scored_exercises in
  let safe_exercises := sort_by_score_desc safe_exercises in
  let recommendations := slice_to limit safe_exercises in
  Ok recommendations.

(** The test of the stretching loop. *)
Definition is_stretching (ex : Exercise) : bool :=
  let category := category_lower ex in
  let name_lower := lower (name ex) in
  (str_in category ["stretching"; "flexibility"; "mobility"] || contains "stretch" name_lower)%bool.

Definition get_stretching_recommendations (catalog : list Exercise) (user : UserProfile)
    (limit : Z) : result (list RecommendationScore) :=
  let pt_exercises := filter_pt_relevant catalog in
  let stretching_exercises := filter is_stretching pt_exercises in
  scored_exercises <- mapM (fun exercise => calculate_recommendation_score exercise user)
                           stretching_exercises ;;
  let safe_exercises := filter not_contraindicated scored_exercises in
  let safe_exercises := sort_by_score_desc safe_exercises in
  Ok (slice_to limit safe_exercises).

(** ** The counts the routes report *)

(** [len(engine.exercises)] and [len(engine.filter_pt_relevant())], the
    'exercises_loaded' (or 'total_exercises') and 'pt_exercises' entries of
    the health and recommendation responses. *)
Definition exercises_loaded (catalog : list Exercise) : nat := length catalog.

Definition pt_exercises (catalog : list Exercise) : nat :=
  length (filter_pt_relevant catalog).

(** The 'total_stretching_exercises' entry of the stretching response:
    [len([ex for ex in engine.filter_pt_relevant()
          if ex.category and
             ex.category.lower() in ['stretching', 'flexibility', 'mobility']])]. *)
Definition total_stretching_exercises (catalog : list Exercise) : nat :=
  length (filter (fun ex =>
                    (truthy (category ex)
                     && str_in (category_lower ex) ["stretching"; "flexibility"; "mobility"])%bool)
                 (filter_pt_relevant catalog)).

(** ** _prepare_vectors: the texts *)

(** [sep.join(parts)] *)
Fixpoint join (sep : string) (parts : list string) : string :=
  match parts with
  | [] => ""
  | s :: rest =>
      match rest with
      | [] => s
      | _ :: _ => s ++ sep ++ join sep rest
      end
  end.

(** [o or ''] for an [Optional[str]] *)
Definition or_empty (o : option string) : string :=
  match o with
  | Some s => s
  | None => ""
  end.

(** The text of one exercise in [_prepare_vectors]. *)
Definition exercise_text (ex : Exercise) : string :=
  let text_parts :=
    [name ex;
     or_empty (category ex);
     or_empty (equipment ex);
     join " " (primaryMuscles ex);
     join " " (secondaryMuscles ex);
     join " " (instructions ex)] in
  lower (join " " text_parts).

(** The list handed to [fit_transform]. *)
Definition exercise_texts (catalog : list Exercise) : list string :=
  map exercise_text catalog.

(** * Specification vocabulary *)

(** ** Tiers, labels, ranges and sub-scores *)

Definition five_tiers : list string :=
  ["very-low"; "low"; "moderate"; "high"; "very-high"].


(** [d] holds an int under 'min', an int under 'max' and a list under
    'optimal'. *)
Definition range_of (d : dict) (mn mx : Z) (opt : list Z) : Prop :=
  getitem d "min" = Ok (PyInt mn) /\
  getitem d "max" = Ok (PyInt mx) /\
  getitem d "optimal" = Ok (PyList opt).

(** A well-formed range: every optimal value lies between min and max. *)
Definition range_ok (d : dict) : Prop :=
  exists mn mx opt,
    range_of d mn mx opt /\ Forall (fun v => mn <= v <= mx) opt.

Definition stretching_override : dict :=
  [("min", PyInt 1); ("max", PyInt 10); ("optimal", PyList [2; 3; 4; 5])].

(** The value a range-scoring block gives for level [n]. *)
Definition range_score (mn mx : Z) (opt : list Z) (n : Z) : float :=
  if ((mn <=? n) && (n <=? mx))%bool
  then if existsb (Z.eqb n) opt then 1.0%float else 0.8%float
  else 0.1%float.

Definition sub_scores : list float := [0.1%float; 0.8%float; 1.0%float].

Definition condition_reason (user : UserProfile) : string :=
  "Specifically targets your " ++ condition user ++ " condition".

Definition condition_scores : list float := [0.5%float; 1.0%float].

Definition benefit_scores : list float :=
  [0.0%float; 0.6000000000000001%float; 1.0%float].

(** The accumulation [score += sub_score * weight], four times from 0.0,
    in the order of the code. *)
Definition weighted_sum (pain_score mobility_score condition_score benefit_score : float)
    : float :=
  (0.0 + pain_score * 0.4 + mobility_score * 0.3
   + condition_score * 0.2 + benefit_score * 0.1)%float.

(** ** The scale of returned scores *)

(** The number of hundredths [round2] rounds a positive [x] to. *)
Definition hundredths (x : float) : Z :=
  match Prim2SF x with
  | S754_finite false m e =>
      if 0 <=? e then Z.pos m * 2 ^ e * 100
      else div_half_even (Z.pos m * 100) (2 ^ (- e))
  | _ => 0
  end.

Definition scale : list Z := map Z.of_nat (seq 0 101).

(** On the scale 0.00, 0.01, ..., 1.00 the float comparisons are the
    comparisons of the numbers of hundredths. *)
Definition cents_agree (k1 k2 : Z) : bool :=
  (Bool.eqb (cents k1 <? cents k2)%float (k1 <? k2)
   && Bool.eqb (cents k1 <=? cents k2)%float (k1 <=? k2)
   && Bool.eqb (cents k1 =? cents k2)%float (k1 =? k2))%bool.

(** A returned score is one of 0.17, 0.18, ..., 1.00. *)
Definition on_scale (r : RecommendationScore) : Prop :=
  exists k, 17 <= k <= 100 /\ score r = cents k.

(** ** Order and categories of the recommendations *)

(** [a] may stand before [b] in a descending list: [b.score <= a.score]. *)
Definition score_ge (a b : RecommendationScore) : Prop :=
  (score b <=? score a)%float = true.

(** [r.score == v.score] *)
Definition same_score (v r : RecommendationScore) : bool :=
  (score r =? score v)%float.

(** What the two filters leave of the category. *)
Definition stretching_category_ok (ex : Exercise) : Prop :=
  category_lower ex <> "flexibility"
  /\ category_lower ex <> "mobility"
  /\ (category_lower ex = "stretching"
      \/ (truthy (category ex) = false /\ contains "stretch" (lower (name ex)) = true)
      \/ (contains "stretch" (lower (name ex)) = true
          /\ In (category_lower ex) pt_categories)).

(** ** The classifier as an ordered rule list *)

(** The classifier as the specification words it: an ordered list of
    rules, each a set of name keywords or a set of categories with the
    tier it yields, the first rule that fires deciding; then the declared
    level. *)
Inductive rule : Set :=
| NameContainsAny (keywords : list string)
| CategoryIn (categories : list string).

Definition intensity_rules : list (rule * string) :=
  [(NameContainsAny ["jump"; "explosive"; "plyometric"; "sprint"; "burpee"], "very-high");
   (NameContainsAny ["squat"; "deadlift"; "press"; "pull"; "push"; "weight"; "heavy"], "high");
   (CategoryIn ["strength"; "powerlifting"], "high");
   (NameContainsAny ["bridge"; "plank"; "lunge"; "step"; "walk"], "moderate");
   (CategoryIn ["cardio"; "olympic weightlifting"], "moderate");
   (NameContainsAny ["stretch"; "gentle"; "slow"; "breathing"], "low");
   (CategoryIn ["stretching"; "flexibility"; "mobility"], "low");
   (NameContainsAny ["passive"; "rest"; "meditation"; "mindfulness"], "very-low")].

Definition rule_fires (r : rule) (ex : Exercise) : bool :=
  match r with
  | NameContainsAny keywords => any_word_in keywords (lower (name ex))
  | CategoryIn categories => str_in (category_lower ex) categories
  end.

Fixpoint first_match (rules : list (rule * string)) (ex : Exercise) : option string :=
  match rules with
  | [] => None
  | (r, tier) :: rest => if rule_fires r ex then Some tier else first_match rest ex
  end.

Definition level_fallback (lvl : string) : string :=
  if String.eqb lvl "beginner" then "low"
  else if String.eqb lvl "intermediate" then "moderate"
  else if String.eqb lvl "advanced" then "high"
  else if String.eqb lvl "expert" then "very-high"
  else "moderate".

Definition classify_by_rules (ex : Exercise) : string :=
  match first_match intensity_rules ex with
  | Some tier => tier
  | None => level_fallback (level ex)
  end.

(** ** Sample inputs *)

Definition gentle_hamstring_stretch : Exercise :=
  {| id := "Gentle_Hamstring_Stretch";
     name := "Gentle Hamstring Stretch";
     force := None;
     level := "beginner";
     mechanic := None;
     equipment := None;
     primaryMuscles := ["hamstrings"];
     secondaryMuscles := [];
     instructions := [];
     category := Some "stretching";
     images := [] |}.

Definition hamstring_profile : UserProfile :=
  {| pain_level := 7; mobility_level := 4; condition := "hamstring"; goals := [] |}.

(** No keyword in the name, a category outside every special case, one
    muscle: tier low by the declared level, no therapeutic benefit. *)
Definition ankle_circles : Exercise :=
  {| id := "Ankle_Circles";
     name := "Ankle Circles";
     force := None;
     level := "beginner";
     mechanic := None;
     equipment := Some "body only";
     primaryMuscles := ["calves"];
     secondaryMuscles := [];
     instructions := [];
     category := Some "plyometrics";
     images := [] |}.

Definition calves_profile : UserProfile :=
  {| pain_level := 7; mobility_level := 4; condition := "calves"; goals := [] |}.

Definition calf_stretch : Exercise :=
  {| id := "Calf_Stretch";
     name := "Calf Stretch";
     force := Some "static";
     level := "beginner";
     mechanic := None;
     equipment := None;
     primaryMuscles := ["calves"];
     secondaryMuscles := [];
     instructions := [];
     category := Some "stretching";
     images := [] |}.

Definition stiff_calves_profile : UserProfile :=
  {| pain_level := 7; mobility_level := 8; condition := "calves"; goals := [] |}.

Definition barbell_back_squat : Exercise :=
  {| id := "Barbell_Back_Squat";
     name := "Barbell Back Squat";
     force := Some "push";
     level := "intermediate";
     mechanic := Some "compound";
     equipment := Some "barbell";
     primaryMuscles := ["quadriceps"];
     secondaryMuscles := ["glutes"; "hamstrings"];
     instructions := [];
     category := Some "strength";
     images := [] |}.

Definition hip_mobility_drill : Exercise :=
  {| id := "Hip_Mobility_Drill";
     name := "Hip Circles";
     force := None;
     level := "beginner";
     mechanic := None;
     equipment := Some "body only";
     primaryMuscles := ["abductors"];
     secondaryMuscles := [];
     instructions := [];
     category := Some "Mobility";
     images := [] |}.

Definition no_condition_profile : UserProfile :=
  {| pain_level := 7; mobility_level := 4; condition := ""; goals := [] |}.

Definition knee_profile : UserProfile :=
  {| pain_level := 9; mobility_level := 3; condition := "knee"; goals := [] |}.

Definition knee_pain_profile : UserProfile :=
  {| pain_level := 2; mobility_level := 4; condition := "knee"; goals := [] |}.

(** The user profile [user] with its pain level replaced. *)
Definition with_pain_level (user : UserProfile) (p : Z) : UserProfile :=
  {| pain_level := p;
     mobility_level := mobility_level user;
     condition := condition user;
     goals := goals user |}.

(** ** Reading a suitability range *)

Definition dict_int (d : dict) (key : string) : Z :=
  match assoc key d with
  | Some (PyInt n) => n
  | _ => 0
  end.

Definition dict_ints (d : dict) (key : string) : list Z :=
  match assoc key d with
  | Some (PyList l) => l
  | _ => []
  end.

(** [n] lies between the 'min' and the 'max' of [d]. *)
Definition level_in_range (d : dict) (n : Z) : bool :=
  ((dict_int d "min" <=? n) && (n <=? dict_int d "max"))%bool.

(** [n] is one of the 'optimal' values of [d]. *)
Definition level_optimal (d : dict) (n : Z) : bool :=
  existsb (Z.eqb n) (dict_ints d "optimal").

Definition pain_in_range (ex : Exercise) (user : UserProfile) : bool :=
  level_in_range (get_pain_suitability ex (pain_level user)) (pain_level user).

Definition pain_optimal (ex : Exercise) (user : UserProfile) : bool :=
  level_optimal (get_pain_suitability ex (pain_level user)) (pain_level user).

Definition mobility_in_range (ex : Exercise) (user : UserProfile) : bool :=
  level_in_range (get_mobility_suitability ex (mobility_level user)) (mobility_level user).

Definition mobility_optimal (ex : Exercise) (user : UserProfile) : bool :=
  level_optimal (get_mobility_suitability ex (mobility_level user)) (mobility_level user).

(** Some primary or secondary muscle matches the condition. *)
Definition condition_matches (ex : Exercise) (user : UserProfile) : bool :=
  existsb (muscle_matches (lower (condition user)))
          (primaryMuscles ex ++ secondaryMuscles ex).

(** ** The result of a scoring call, without dicts and exceptions *)

Definition sub_score (in_range optimal : bool) : float :=
  if in_range then if optimal then 1.0%float else 0.8%float else 0.1%float.

Definition pain_warning (user : UserProfile) : string :=
  "May not be suitable for your pain level (" ++ str_of_int (pain_level user) ++ "/10)".

Definition mobility_warning (user : UserProfile) : string :=
  "May be too challenging for your mobility level ("
  ++ str_of_int (mobility_level user) ++ "/10)".

Definition expected_warnings (ex : Exercise) (user : UserProfile) : list string :=
  ((if pain_in_range ex user then [] else [pain_warning user])
   ++ (if mobility_in_range ex user then [] else [mobility_warning user]))%list.

Definition benefit_reason (n : Z) : string :=
  "Provides " ++ str_of_int n ++ " therapeutic benefit" ++ (if (1 <? n)%Z then "s" else "").

Definition expected_reasons (ex : Exercise) (user : UserProfile) : list string :=
  ((if pain_in_range ex user
    then ("Suitable for your pain level (" ++ str_of_int (pain_level user) ++ "/10)")%string
         :: (if pain_optimal ex user then ["Optimal for your current pain level"] else [])
    else [])
   ++ (if mobility_in_range ex user
       then ("Appropriate for your mobility level ("
             ++ str_of_int (mobility_level user) ++ "/10)")%string
            :: (if mobility_optimal ex user then ["Perfect match for your mobility level"]
                else [])
       else [])
   ++ (if condition_matches ex user then [condition_reason user] else [])
   ++ (match get_therapeutic_benefits ex with
       | [] => []
       | _ :: _ => [benefit_reason (Z.of_nat (length (get_therapeutic_benefits ex)))]
       end))%list.

Definition benefit_sub_score (count : nat) : float :=
  py_min (float_of_int (Z.of_nat count) * 0.2)%float 1.0%float.

Definition expected_sum (ex : Exercise) (user : UserProfile) : float :=
  weighted_sum (sub_score (pain_in_range ex user) (pain_optimal ex user))
               (sub_score (mobility_in_range ex user) (mobility_optimal ex user))
               (if condition_matches ex user then 1.0%float else 0.5%float)
               (benefit_sub_score (length (get_therapeutic_benefits ex))).

Definition expected_score (ex : Exercise) (user : UserProfile) : RecommendationScore :=
  {| exercise := ex;
     score := round2 (expected_sum ex user);
     reasons := expected_reasons ex user;
     warnings := expected_warnings ex user;
     suitability := determine_suitability (expected_sum ex user) |}.

(** ** The score in exact decimal arithmetic *)

(** A range sub-score in hundredths: 1.0, 0.8 or 0.1. *)
Definition sub_points (in_range optimal : bool) : Z :=
  if in_range then if optimal then 100 else 80 else 10.

(** [100 * (0.4 p + 0.3 m + 0.2 c + 0.1 b)] for sub-scores given in
    hundredths; the benefit sub-score is [min(0.2 * count, 1.0)]. *)
Definition decimal_points (pain_in pain_opt mob_in mob_opt matched : bool) (count : nat) : Z :=
  (40 * sub_points pain_in pain_opt
   + 30 * sub_points mob_in mob_opt
   + 20 * (if matched then 100 else 50)
   + 10 * Z.min 100 (20 * Z.of_nat count)) / 100.

Definition score_points (ex : Exercise) (user : UserProfile) : Z :=
  decimal_points (pain_in_range ex user) (pain_optimal ex user)
                 (mobility_in_range ex user) (mobility_optimal ex user)
                 (condition_matches ex user)
                 (length (get_therapeutic_benefits ex)).

(** The label the thresholds give to a score of [k] hundredths. *)
Definition decimal_label (k : Z) : string :=
  if 90 <=? k then "excellent"
  else if 70 <=? k then "good"
  else if 50 <=? k then "moderate"
  else if 30 <=? k then "poor"
  else "contraindicated".

(** The two sums that binary64 accumulation leaves just below a
    threshold: 0.4 + 0.3 + 0.2 (+ 0.0), also reached as 0.4 + 0.3 + 0.1 +
    0.1, and 0.04 + 0.3 + 0.1 + 0.06. *)
Definition below_0_9 (pain_in pain_opt mob_in mob_opt matched : bool) (count : nat) : bool :=
  (pain_in && pain_opt && mob_in && mob_opt
   && (if matched then Nat.eqb count 0 else Nat.leb 6 count))%bool.

Definition below_0_5 (pain_in pain_opt mob_in mob_opt matched : bool) (count : nat) : bool :=
  (negb pain_in && mob_in && mob_opt && negb matched && Nat.eqb count 3)%bool.

Definition float_label (pain_in pain_opt mob_in mob_opt matched : bool) (count : nat) : string :=
  if below_0_9 pain_in pain_opt mob_in mob_opt matched count then "good"
  else if below_0_5 pain_in pain_opt mob_in mob_opt matched count then "poor"
  else decimal_label (decimal_points pain_in pain_opt mob_in mob_opt matched count).

(** excellent 4, good 3, moderate 2, poor 1, contraindicated 0. *)
Definition label_rank (label : string) : Z :=
  if String.eqb label "excellent" then 4
  else if String.eqb label "good" then 3
  else if String.eqb label "moderate" then 2
  else if String.eqb label "poor" then 1
  else 0.

(** The cases of a scoring call: four range tests, the condition test and
    the number of benefit buckets that fire. *)
Definition score_case : Type := (bool * bool * bool * bool * bool * nat)%type.

Definition all_cases : list score_case :=
  list_prod (list_prod (list_prod (list_prod (list_prod
    [true; false] [true; false]) [true; false]) [true; false]) [true; false])
    (seq 0 7).

Definition case_points (c : score_case) : Z :=
  let '(pi, po, mi, mo, cm, b) := c in decimal_points pi po mi mo cm (3 * b).

Definition case_label (c : score_case) : string :=
  let '(pi, po, mi, mo, cm, b) := c in float_label pi po mi mo cm (3 * b).

Definition case_sum (c : score_case) : float :=
  let '(pi, po, mi, mo, cm, b) := c in
  weighted_sum (sub_score pi po) (sub_score mi mo)
               (if cm then 1.0%float else 0.5%float)
               (benefit_sub_score (3 * b)).

(** The user profile [user] with its condition replaced. *)
Definition with_condition (user : UserProfile) (c : string) : UserProfile :=
  {| pain_level := pain_level user;
     mobility_level := mobility_level user;
     condition := c;
     goals := goals user |}.

(** The test of the stretching loop, on a scored entry. *)
Definition entry_is_stretching (r : RecommendationScore) : bool :=
  is_stretching (exercise r).

(** ** Tiers, categories and the ranking *)

(** The ranked list before the slice. *)
Definition ranked (exercises : list Exercise) (user : UserProfile)
    : list RecommendationScore :=
  sort_by_score_desc
    (filter not_contraindicated (map (fun ex => expected_score ex user) exercises)).

Definition balance_range : dict :=
  [("min", PyInt 3); ("max", PyInt 10); ("optimal", PyList [4; 5; 6; 7])].

(** very-low 0, low 1, moderate 2, high 3, very-high 4. *)
Definition tier_rank (tier : string) : Z :=
  if String.eqb tier "very-high" then 4
  else if String.eqb tier "high" then 3
  else if String.eqb tier "moderate" then 2
  else if String.eqb tier "low" then 1
  else 0.

(** The tier a category alone gives. *)
Definition category_floor (category : string) : Z :=
  if str_in category ["strength"; "powerlifting"] then 3
  else if str_in category ["cardio"; "olympic weightlifting"] then 2
  else if str_in category ["stretching"; "flexibility"; "mobility"] then 1
  else 0.

Definition very_low_keywords : list string :=
  ["passive"; "rest"; "meditation"; "mindfulness"].

(** ** More sample inputs *)

Definition low_mobility_profile : UserProfile :=
  {| pain_level := 7; mobility_level := 1; condition := "hamstring"; goals := [] |}.

Definition guided_meditation : Exercise :=
  {| id := "Guided_Meditation";
     name := "Guided Meditation";
     force := None;
     level := "beginner";
     mechanic := None;
     equipment := None;
     primaryMuscles := [];
     secondaryMuscles := [];
     instructions := [];
     category := None;
     images := [] |}.

Definition sample_catalog : list Exercise :=
  [barbell_back_squat; ankle_circles; gentle_hamstring_stretch; calf_stretch].

Definition hamstring_profile_with_goals : UserProfile :=
  {| pain_level := 7; mobility_level := 4; condition := "hamstring";
     goals := ["run a marathon"] |}.

(** * Properties *)

(** ** Strings *)

Lemma prefix_empty (s : string) : String.prefix "" s = true.
Proof. destruct s; reflexivity. Qed.

(** The empty string occurs in every string. *)
Lemma contains_empty (s : string) : contains "" s = true.
Proof. destruct s; reflexivity. Qed.

Lemma str_in_In (x : string) (l : list string) : str_in x l = true <-> In x l.
Proof.
  unfold str_in. rewrite existsb_exists. split.
  - intros [y [Hy Heq]]. apply String.eqb_eq in Heq. now subst.
  - intros H. exists x. split; [assumption | apply String.eqb_refl].
Qed.

Lemma category_lower_falsy (ex : Exercise) :
  truthy (category ex) = false -> category_lower ex = "".
Proof.
  unfold category_lower. destruct (category ex) as [c|]; [|reflexivity].
  intros H. now rewrite H.
Qed.

(** ** The five tiers *)

Lemma level_fallback_five (lvl : string) : In (dict_get level_map lvl "moderate") five_tiers.
Proof.
  unfold dict_get, level_map, five_tiers. cbn [assoc].
  repeat match goal with
         | |- context [String.eqb ?a ?b] => destruct (String.eqb a b)
         end; cbn [In]; tauto.
Qed.

Lemma calculate_intensity_five (ex : Exercise) : In (calculate_intensity ex) five_tiers.
Proof.
  unfold calculate_intensity.
  repeat match goal with
         | |- In (if ?c then _ else _) _ => destruct c
         end;
    try apply level_fallback_five; unfold five_tiers; cbn [In]; tauto.
Qed.

(** ** Suitability ranges *)

Ltac range_ok_literal :=
  eexists _, _, _; split;
  [ repeat split; reflexivity
  | repeat constructor; lia ].

Lemma default_range_ok : range_ok default_range.
Proof. unfold default_range. range_ok_literal. Qed.

Lemma pain_range_ok (intensity : string) : range_ok (pain_range intensity).
Proof.
  unfold pain_range, dict_get, pain_intensity_ranges, default_range. cbn [assoc].
  repeat match goal with
         | |- context [String.eqb intensity ?b] => destruct (String.eqb intensity b)
         end; range_ok_literal.
Qed.

Lemma mobility_range_ok (category intensity : string) :
  range_ok (mobility_range category intensity).
Proof.
  unfold mobility_range.
  destruct (str_in category _); [range_ok_literal|].
  repeat match goal with
         | |- context [String.eqb category ?b] =>
             destruct (String.eqb category b); [range_ok_literal|]
         end.
  unfold dict_get, mobility_intensity_ranges, default_range. cbn [assoc].
  repeat match goal with
         | |- context [String.eqb intensity ?b] => destruct (String.eqb intensity b)
         end; range_ok_literal.
Qed.

(** A tier outside the table gets the default range. *)
Lemma pain_range_unknown (intensity : string) :
  ~ In intensity five_tiers -> pain_range intensity = default_range.
Proof.
  intros H. unfold pain_range, dict_get, pain_intensity_ranges. cbn [assoc].
  repeat match goal with
         | |- context [String.eqb intensity ?b] =>
             destruct (String.eqb_spec intensity b);
             [exfalso; apply H; subst; unfold five_tiers; cbn [In]; tauto|]
         end.
  reflexivity.
Qed.

(** ** The two range-scoring blocks *)

Lemma chained_le_range (d : dict) (mn mx : Z) (opt : list Z) (n : Z) :
  range_of d mn mx opt ->
  chained_le (getitem d "min") n (getitem d "max") = Ok ((mn <=? n) && (n <=? mx))%bool.
Proof.
  intros (Hmin & Hmax & _). unfold chained_le. rewrite Hmin, Hmax. cbn.
  now destruct (mn <=? n).
Qed.

Lemma range_score_cases (mn mx : Z) (opt : list Z) (n : Z) :
  In (range_score mn mx opt n) sub_scores.
Proof.
  unfold range_score, sub_scores.
  destruct (_ && _)%bool; [destruct (existsb _ _)|]; cbn [In]; tauto.
Qed.

Lemma pain_level_scoring_value (ex : Exercise) (user : UserProfile)
    (rs ws : list string) (mn mx : Z) (opt : list Z) :
  range_of (get_pain_suitability ex (pain_level user)) mn mx opt ->
  exists rs' ws',
    pain_level_scoring ex user rs ws
    = Ok (range_score mn mx opt (pain_level user), rs', ws').
Proof.
  intros Hr. unfold pain_level_scoring, range_score.
  rewrite (chained_le_range _ _ _ _ _ Hr).
  destruct Hr as (_ & _ & Hopt). rewrite Hopt. cbn.
  destruct (_ && _)%bool; [destruct (existsb _ _)|]; eexists _, _; reflexivity.
Qed.

Lemma mobility_level_scoring_value (ex : Exercise) (user : UserProfile)
    (rs ws : list string) (mn mx : Z) (opt : list Z) :
  range_of (get_mobility_suitability ex (mobility_level user)) mn mx opt ->
  exists rs' ws',
    mobility_level_scoring ex user rs ws
    = Ok (range_score mn mx opt (mobility_level user), rs', ws').
Proof.
  intros Hr. unfold mobility_level_scoring, range_score.
  rewrite (chained_le_range _ _ _ _ _ Hr).
  destruct Hr as (_ & _ & Hopt). rewrite Hopt. cbn.
  destruct (_ && _)%bool; [destruct (existsb _ _)|]; eexists _, _; reflexivity.
Qed.

(** ** Condition matching *)

(** The loop stops at the first muscle that matches: its result only
    depends on whether some muscle matches. *)
Lemma condition_loop_existsb (user : UserProfile) (cl : string) (muscles : list string)
    (s : float) (rs : list string) :
  condition_loop user cl muscles s rs
  = if existsb (muscle_matches cl) muscles
    then (1.0%float, (rs ++ [condition_reason user])%list)
    else (s, rs).
Proof.
  induction muscles as [|m rest IH]; cbn [condition_loop existsb]; [reflexivity|].
  destruct (muscle_matches cl m); cbn [orb]; [reflexivity | exact IH].
Qed.

Lemma condition_matching_cases (ex : Exercise) (user : UserProfile) (rs : list string) :
  In (fst (condition_matching ex user rs)) condition_scores.
Proof.
  unfold condition_matching. rewrite condition_loop_existsb.
  destruct (existsb _ _); unfold condition_scores; cbn; tauto.
Qed.

(** ** Therapeutic benefits *)

(** Every bucket adds three benefits, and there are six buckets. *)
Lemma benefits_length (ex : Exercise) :
  exists b : nat,
    (b <= 6)%nat /\ length (get_therapeutic_benefits ex) = (3 * b)%nat.
Proof.
  unfold get_therapeutic_benefits. cbv zeta.
  repeat match goal with
         | |- context [if ?c then _ else _] => destruct c
         end;
    cbn [app length];
    match goal with
    | |- exists b, _ /\ ?n = _ => exists (Nat.div n 3); cbn; split; [lia | reflexivity]
    end.
Qed.

Lemma benefit_score_cases (b : nat) :
  (b <= 6)%nat ->
  In (py_min (float_of_int (Z.of_nat (3 * b)) * 0.2)%float 1.0%float) benefit_scores.
Proof.
  intros Hb. unfold benefit_scores.
  do 7 (destruct b as [|b]; [vm_compute; tauto|]). lia.
Qed.

Lemma therapeutic_benefits_scoring_cases (ex : Exercise) (rs : list string) :
  In (fst (therapeutic_benefits_scoring ex rs)) benefit_scores.
Proof.
  unfold therapeutic_benefits_scoring. cbv zeta. cbn [fst].
  destruct (benefits_length ex) as (b & Hb & Hlen). rewrite Hlen.
  now apply benefit_score_cases.
Qed.

(** ** The shape of a score *)

(** Every call returns a value: the rounded weighted sum of four
    sub-scores, each from its finite set, labelled from the unrounded sum. *)
Lemma calculate_recommendation_score_shape (ex : Exercise) (user : UserProfile) :
  exists ps ms cs bs rs ws,
    calculate_recommendation_score ex user
    = Ok {| exercise := ex;
            score := round2 (weighted_sum ps ms cs bs);
            reasons := rs;
            warnings := ws;
            suitability := determine_suitability (weighted_sum ps ms cs bs) |}
    /\ In ps sub_scores /\ In ms sub_scores
    /\ In cs condition_scores /\ In bs benefit_scores.
Proof.
  destruct (pain_range_ok (calculate_intensity ex)) as (pmn & pmx & popt & Hp & _).
  destruct (mobility_range_ok (category_lower ex) (calculate_intensity ex))
    as (mmn & mmx & mopt & Hm & _).
  unfold calculate_recommendation_score. cbv zeta.
  destruct (pain_level_scoring_value ex user [] [] pmn pmx popt Hp) as (rs1 & ws1 & E1).
  rewrite E1. cbn [bind].
  destruct (mobility_level_scoring_value ex user rs1 ws1 mmn mmx mopt Hm) as (rs2 & ws2 & E2).
  rewrite E2. cbn [bind].
  pose proof (condition_matching_cases ex user rs2) as Hc.
  destruct (condition_matching ex user rs2) as [cs rs3]. cbn [fst] in Hc.
  pose proof (therapeutic_benefits_scoring_cases ex rs3) as Hb.
  destruct (therapeutic_benefits_scoring ex rs3) as [bs rs4]. cbn [fst] in Hb.
  exists (range_score pmn pmx popt (pain_level user)),
         (range_score mmn mmx mopt (mobility_level user)), cs, bs, rs4, ws2.
  split; [reflexivity|].
  repeat split; try assumption; apply range_score_cases.
Qed.

(** ** Scores are whole hundredths *)

(** All 3 * 3 * 2 * 3 combinations of sub-scores, by evaluation. *)
Lemma weighted_sum_grid (ps ms cs bs : float) :
  In ps sub_scores -> In ms sub_scores ->
  In cs condition_scores -> In bs benefit_scores ->
  ((17 <=? hundredths (weighted_sum ps ms cs bs))
   && (hundredths (weighted_sum ps ms cs bs) <=? 100))%bool = true
  /\ round2 (weighted_sum ps ms cs bs) = cents (hundredths (weighted_sum ps ms cs bs)).
Proof.
  unfold sub_scores, condition_scores, benefit_scores. cbn [In].
  intros Hp Hm Hc Hb.
  repeat match goal with
         | H : _ \/ _ |- _ => destruct H as [H|H]
         | H : False |- _ => destruct H
         end;
    subst; split; vm_compute; reflexivity.
Qed.

Lemma in_scale (k : Z) : 0 <= k <= 100 -> In k scale.
Proof.
  intros H. unfold scale. apply in_map_iff. exists (Z.to_nat k).
  split; [lia | apply in_seq; lia].
Qed.

Lemma cents_agree_scale :
  forallb (fun k1 => forallb (cents_agree k1) scale) scale = true.
Proof. vm_compute. reflexivity. Qed.

Lemma cents_compare (k1 k2 : Z) :
  0 <= k1 <= 100 -> 0 <= k2 <= 100 ->
  (cents k1 <? cents k2)%float = (k1 <? k2)
  /\ (cents k1 <=? cents k2)%float = (k1 <=? k2)
  /\ (cents k1 =? cents k2)%float = (k1 =? k2).
Proof.
  intros H1 H2. pose proof cents_agree_scale as H.
  rewrite forallb_forall in H. specialize (H k1 (in_scale k1 H1)).
  rewrite forallb_forall in H. specialize (H k2 (in_scale k2 H2)).
  unfold cents_agree in H.
  apply andb_prop in H. destruct H as [H Heq].
  apply andb_prop in H. destruct H as [Hlt Hle].
  apply Bool.eqb_prop in Hlt, Hle, Heq. auto.
Qed.

Lemma calculate_recommendation_score_on_scale (ex : Exercise) (user : UserProfile)
    (r : RecommendationScore) :
  calculate_recommendation_score ex user = Ok r -> on_scale r.
Proof.
  destruct (calculate_recommendation_score_shape ex user)
    as (ps & ms & cs & bs & rs & ws & E & Hp & Hm & Hc & Hb).
  rewrite E. intros [= <-]. cbn [score].
  destruct (weighted_sum_grid ps ms cs bs Hp Hm Hc Hb) as [Hk Hr].
  exists (hundredths (weighted_sum ps ms cs bs)). split; [lia | exact Hr].
Qed.

Lemma calculate_recommendation_score_total (ex : Exercise) (user : UserProfile) :
  exists r, calculate_recommendation_score ex user = Ok r.
Proof.
  destruct (calculate_recommendation_score_shape ex user)
    as (ps & ms & cs & bs & rs & ws & E & _).
  eexists. exact E.
Qed.

Lemma cents_ltb (k1 k2 : Z) :
  0 <= k1 <= 100 -> 0 <= k2 <= 100 -> (cents k1 <? cents k2)%float = (k1 <? k2).
Proof. intros H1 H2. apply (cents_compare k1 k2 H1 H2). Qed.

Lemma cents_leb (k1 k2 : Z) :
  0 <= k1 <= 100 -> 0 <= k2 <= 100 -> (cents k1 <=? cents k2)%float = (k1 <=? k2).
Proof. intros H1 H2. apply (cents_compare k1 k2 H1 H2). Qed.

Lemma cents_eqb (k1 k2 : Z) :
  0 <= k1 <= 100 -> 0 <= k2 <= 100 -> (cents k1 =? cents k2)%float = (k1 =? k2).
Proof. intros H1 H2. apply (cents_compare k1 k2 H1 H2). Qed.

(** ** The sort *)

(** Turns float comparisons of scores on the scale into integer ones. *)
Ltac scale_cmp :=
  repeat match goal with
         | H : on_scale _ |- _ => destruct H as (? & ? & ?)
         end;
  unfold score_ge, same_score in *;
  repeat match goal with
         | H : score _ = cents _ |- _ => rewrite H in *; clear H
         end;
  rewrite ?cents_ltb, ?cents_leb, ?cents_eqb in * by lia.

Lemma score_ge_of_not_lt (x y : RecommendationScore) :
  on_scale x -> on_scale y -> (score x <? score y)%float = false -> score_ge x y.
Proof. intros Hx Hy H. scale_cmp. lia. Qed.

Lemma score_ge_of_lt (x y : RecommendationScore) :
  on_scale x -> on_scale y -> (score x <? score y)%float = true -> score_ge y x.
Proof. intros Hx Hy H. scale_cmp. lia. Qed.

Lemma score_ge_trans (x y z : RecommendationScore) :
  on_scale x -> on_scale y -> on_scale z ->
  score_ge x y -> score_ge y z -> score_ge x z.
Proof. intros Hx Hy Hz H1 H2. scale_cmp. lia. Qed.

Lemma lt_not_same_score (v x y : RecommendationScore) :
  on_scale v -> on_scale x -> on_scale y ->
  (score x <? score y)%float = true ->
  same_score v x = true -> same_score v y = false.
Proof. intros Hv Hx Hy H1 H2. scale_cmp. lia. Qed.

Lemma insert_desc_perm (x : RecommendationScore) (l : list RecommendationScore) :
  Permutation (insert_desc x l) (x :: l).
Proof.
  induction l as [|y l IH]; cbn [insert_desc]; [reflexivity|].
  destruct (score x <? score y)%float; [|reflexivity].
  rewrite IH. apply perm_swap.
Qed.

Lemma sort_by_score_desc_perm (l : list RecommendationScore) :
  Permutation (sort_by_score_desc l) l.
Proof.
  induction l as [|x l IH]; cbn [sort_by_score_desc]; [reflexivity|].
  rewrite insert_desc_perm. now constructor.
Qed.

Lemma insert_desc_Forall (P : RecommendationScore -> Prop) (x : RecommendationScore)
    (l : list RecommendationScore) :
  P x -> Forall P l -> Forall P (insert_desc x l).
Proof.
  intros Hx Hl. apply (Permutation_Forall (Permutation_sym (insert_desc_perm x l))).
  now constructor.
Qed.

Lemma sort_by_score_desc_Forall (P : RecommendationScore -> Prop)
    (l : list RecommendationScore) :
  Forall P l -> Forall P (sort_by_score_desc l).
Proof.
  intros Hl. exact (Permutation_Forall (Permutation_sym (sort_by_score_desc_perm l)) Hl).
Qed.

Lemma insert_desc_sorted (x : RecommendationScore) (l : list RecommendationScore) :
  on_scale x -> Forall on_scale l ->
  StronglySorted score_ge l -> StronglySorted score_ge (insert_desc x l).
Proof.
  intros Hx Hl Hs. induction l as [|y l IH]; cbn [insert_desc].
  - repeat constructor.
  - inversion Hl as [|? ? Hy Hl']; subst.
    inversion Hs as [|? ? Hs' Hall]; subst.
    destruct (score x <? score y)%float eqn:Hlt.
    + constructor; [now apply IH|].
      apply insert_desc_Forall; [now apply score_ge_of_lt | assumption].
    + constructor; [assumption|].
      assert (Hxy : score_ge x y) by now apply score_ge_of_not_lt.
      constructor; [assumption|].
      rewrite Forall_forall in *. intros z Hz.
      apply (score_ge_trans x y z); auto.
Qed.

Lemma sort_by_score_desc_sorted (l : list RecommendationScore) :
  Forall on_scale l -> StronglySorted score_ge (sort_by_score_desc l).
Proof.
  induction l as [|x l IH]; intros Hl; cbn [sort_by_score_desc]; [constructor|].
  inversion Hl; subst.
  apply insert_desc_sorted; auto using sort_by_score_desc_Forall.
Qed.

(** Inserting [x] never moves it past an entry of the same score. *)
Lemma insert_desc_stable (v x : RecommendationScore) (l : list RecommendationScore) :
  on_scale v -> on_scale x -> Forall on_scale l ->
  filter (same_score v) (insert_desc x l) = filter (same_score v) (x :: l).
Proof.
  intros Hv Hx Hl. induction l as [|y l IH]; cbn [insert_desc]; [reflexivity|].
  inversion Hl as [|? ? Hy Hl']; subst.
  destruct (score x <? score y)%float eqn:Hlt; [|reflexivity].
  cbn [filter]. rewrite (IH Hl'). cbn [filter].
  destruct (same_score v x) eqn:Ex; [|reflexivity].
  now rewrite (lt_not_same_score v x y Hv Hx Hy Hlt Ex).
Qed.

Lemma sort_by_score_desc_stable (v : RecommendationScore) (l : list RecommendationScore) :
  on_scale v -> Forall on_scale l ->
  filter (same_score v) (sort_by_score_desc l) = filter (same_score v) l.
Proof.
  intros Hv Hl. induction l as [|x l IH]; cbn [sort_by_score_desc]; [reflexivity|].
  inversion Hl; subst.
  rewrite insert_desc_stable by auto using sort_by_score_desc_Forall.
  cbn [filter]. now rewrite IH.
Qed.

(** ** Slices and loops *)

Section ListFacts.

Context {A B : Type}.
Implicit Types (l : list A) (n : nat) (P : A -> Prop).

Lemma slice_to_nonneg (limit : Z) l :
  0 <= limit -> slice_to limit l = firstn (Z.to_nat limit) l.
Proof. intros H. unfold slice_to. destruct (Z.ltb_spec limit 0); [lia | reflexivity]. Qed.

Lemma In_firstn n l (x : A) : In x (firstn n l) -> In x l.
Proof.
  revert n. induction l as [|y l IH]; intros [|n]; cbn [firstn In]; try tauto.
  intros [H|H]; [now left | right; now apply (IH n)].
Qed.

Lemma slice_to_incl (limit : Z) l (x : A) : In x (slice_to limit l) -> In x l.
Proof. unfold slice_to. destruct (limit <? 0); apply In_firstn. Qed.

Lemma Forall_firstn P n l : Forall P l -> Forall P (firstn n l).
Proof.
  intros H. revert n. induction H; intros [|n]; cbn [firstn]; constructor; auto.
Qed.

Lemma StronglySorted_firstn (R : A -> A -> Prop) n l :
  StronglySorted R l -> StronglySorted R (firstn n l).
Proof.
  intros H. revert n. induction H; intros [|n]; cbn [firstn]; constructor; auto.
  now apply Forall_firstn.
Qed.

Lemma Forall_filter_of P (f : A -> bool) l : Forall P l -> Forall P (filter f l).
Proof.
  rewrite !Forall_forall. intros H x Hx. apply filter_In in Hx. now apply H.
Qed.

Lemma Forall2_In_r (R : A -> B -> Prop) l (l' : list B) (y : B) :
  Forall2 R l l' -> In y l' -> exists x, In x l /\ R x y.
Proof.
  induction 1 as [|x y' l l' HR _ IH]; cbn [In]; [tauto|].
  intros [<-|Hy].
  - exists x. auto.
  - destruct (IH Hy) as (x' & Hx' & HR'). exists x'. auto.
Qed.

(** A loop whose body never raises runs to its end, element by element. *)
Lemma mapM_total (f : A -> result B) l :
  (forall x, exists y, f x = Ok y) ->
  exists ys, mapM f l = Ok ys /\ Forall2 (fun x y => f x = Ok y) l ys.
Proof.
  intros Hf. induction l as [|x l (ys & E & HF)]; cbn [mapM].
  - exists []. split; [reflexivity | constructor].
  - destruct (Hf x) as [y Ey]. rewrite Ey, E. cbn [bind].
    exists (y :: ys). split; [reflexivity | now constructor].
Qed.

End ListFacts.

(** Two floats that [==] tells apart are different values. *)
Lemma float_neq (x y : float) :
  (x =? y)%float = false -> (y =? y)%float = true -> x <> y.
Proof. intros H1 H2 E. rewrite E in H1. congruence. Qed.

(** * The intensity classifier *)

(** C4. For every exercise, [calculate_intensity] returns one of the five
    tiers, and the tier is the one of the first rule that fires in the
    order: very-high keywords; high keywords, high categories; moderate
    keywords, moderate categories; low keywords, low categories; very-low
    keywords; and otherwise the declared level (beginner low, intermediate
    moderate, advanced high, expert very-high, anything else moderate).
    The tier is a function of the exercise, and of its name, category
    and level only: the same exercise always yields the same tier. *)
Theorem calculate_intensity_first_match (ex : Exercise) :
  In (calculate_intensity ex) five_tiers
  /\ (forall ex',
        name ex' = name ex -> category ex' = category ex -> level ex' = level ex ->
        calculate_intensity ex' = calculate_intensity ex)
  /\ calculate_intensity ex = classify_by_rules ex.
Proof.
  split; [apply calculate_intensity_five|].
  split.
  { intros ex' Hn Hc Hl. unfold calculate_intensity, category_lower.
    now rewrite Hn, Hc, Hl. }
  unfold calculate_intensity, classify_by_rules, intensity_rules.
  cbn [first_match rule_fires].
  repeat match goal with
         | |- (if ?c then _ else _) = _ => destruct c; [reflexivity|]
         end.
  unfold dict_get, level_map, level_fallback. cbn [assoc].
  repeat match goal with
         | |- context [String.eqb (level ex) ?b] =>
             destruct (String.eqb (level ex) b); [reflexivity|]
         end.
  reflexivity.
Qed.

(** * The suitability deriver *)

(** C5. For every tier, known or not, the pain range has min <= v <= max
    for every optimal value v, and so has the mobility range for every
    category (the four special cases and the tier table); this covers the
    default range {min 1, max 10, optimal [5]} of an unknown tier, and the
    ranges [get_pain_suitability] and [get_mobility_suitability] return
    for an exercise. *)
Theorem suitability_ranges_ok :
  (forall intensity, range_ok (pain_range intensity))
  /\ (forall category intensity, range_ok (mobility_range category intensity))
  /\ (forall intensity, ~ In intensity five_tiers ->
        pain_range intensity = default_range /\ range_of default_range 1 10 [5])
  /\ (forall ex n, range_ok (get_pain_suitability ex n)
                   /\ range_ok (get_mobility_suitability ex n)).
Proof.
  split; [exact pain_range_ok|].
  split; [exact mobility_range_ok|].
  split.
  - intros t Ht. split; [now apply pain_range_unknown|]. repeat split.
  - intros ex n. split; [apply pain_range_ok | apply mobility_range_ok].
Qed.

(** * The scoring engine *)

(** ** Totality *)

(** C6. For every exercise and every profile with pain_level and
    mobility_level in [1,10], [calculate_recommendation_score] returns a
    value: no subscript, comparison or membership test in the pain block,
    the mobility block or the whole function raises. A tier outside the
    table takes the default range on both axes, a category outside the
    special cases falls through to the tier table, and an equipment string
    outside the allowed set makes the relevance filter skip the exercise. *)
Theorem calculate_recommendation_score_never_raises (ex : Exercise) (user : UserProfile) :
  1 <= pain_level user <= 10 ->
  1 <= mobility_level user <= 10 ->
  (exists r, calculate_recommendation_score ex user = Ok r)
  /\ (forall rs ws, exists v, pain_level_scoring ex user rs ws = Ok v)
  /\ (forall rs ws, exists v, mobility_level_scoring ex user rs ws = Ok v)
  /\ (forall intensity, ~ In intensity five_tiers ->
        pain_range intensity = default_range)
  /\ (forall category intensity,
        ~ In category ["stretching"; "mobility"; "flexibility"; "balance"; "strength"; "cardio"] ->
        mobility_range category intensity
        = dict_get mobility_intensity_ranges intensity default_range)
  /\ (forall intensity, ~ In intensity five_tiers ->
        dict_get mobility_intensity_ranges intensity default_range = default_range)
  /\ (forall ex' eq,
        equipment ex' = Some eq -> truthy (Some eq) = true ->
        ~ In (lower eq) pt_equipment -> pt_relevant ex' = false).
Proof.
  intros _ _.
  split; [apply calculate_recommendation_score_total|].
  split.
  { intros rs ws.
    destruct (pain_range_ok (calculate_intensity ex)) as (mn & mx & opt & Hr & _).
    destruct (pain_level_scoring_value ex user rs ws mn mx opt Hr) as (rs' & ws' & E).
    eexists. exact E. }
  split.
  { intros rs ws.
    destruct (mobility_range_ok (category_lower ex) (calculate_intensity ex))
      as (mn & mx & opt & Hr & _).
    destruct (mobility_level_scoring_value ex user rs ws mn mx opt Hr) as (rs' & ws' & E).
    eexists. exact E. }
  split; [exact pain_range_unknown|].
  split; [|split].
  - intros c t Hc. unfold mobility_range, str_in. cbn [existsb].
    repeat match goal with
           | |- context [String.eqb c ?b] =>
               destruct (String.eqb_spec c b);
               [exfalso; apply Hc; subst; cbn [In]; tauto|]
           end.
    reflexivity.
  - intros t Ht. unfold dict_get, mobility_intensity_ranges. cbn [assoc].
    repeat match goal with
           | |- context [String.eqb t ?b] =>
               destruct (String.eqb_spec t b);
               [exfalso; apply Ht; subst; unfold five_tiers; cbn [In]; tauto|]
           end.
    reflexivity.
  - intros ex' eq Heq Ht Hnot. unfold pt_relevant. rewrite Heq, Ht.
    destruct (_ && _)%bool; [reflexivity|].
    destruct (str_in (lower eq) excluded_equipment); [reflexivity|].
    destruct (str_in (lower eq) pt_equipment) eqn:E; [|reflexivity].
    apply str_in_In in E. contradiction.
Qed.

Lemma calculate_recommendation_score_never_raises_witness :
  1 <= pain_level hamstring_profile <= 10
  /\ 1 <= mobility_level hamstring_profile <= 10
  /\ exists r, calculate_recommendation_score barbell_back_squat hamstring_profile = Ok r.
Proof.
  assert (Hp : 1 <= pain_level hamstring_profile <= 10) by (cbn; lia).
  assert (Hm : 1 <= mobility_level hamstring_profile <= 10) by (cbn; lia).
  split; [exact Hp|]. split; [exact Hm|].
  exact (proj1 (calculate_recommendation_score_never_raises
                  barbell_back_squat hamstring_profile Hp Hm)).
Defined.

(** ** The pain sub-score *)

(** C7. With the exercise, the mobility level and the condition fixed, a
    pain level p1 outside the exercise's pain range [min,max] gives the
    pain sub-score 0.1, a pain level p2 inside it gives 0.8, or 1.0 when p2
    is an optimal value, and the sub-score at p2 is at least the one at
    p1. *)
Theorem pain_sub_score_monotone (ex : Exercise) (user : UserProfile) (p1 p2 : Z)
    (mn mx : Z) (opt : list Z) (rs ws : list string) :
  range_of (get_pain_suitability ex p1) mn mx opt ->
  ~ (mn <= p1 <= mx) ->
  mn <= p2 <= mx ->
  exists s1 s2 rs1 ws1 rs2 ws2,
    pain_level_scoring ex (with_pain_level user p1) rs ws = Ok (s1, rs1, ws1)
    /\ pain_level_scoring ex (with_pain_level user p2) rs ws = Ok (s2, rs2, ws2)
    /\ s1 = 0.1%float
    /\ s2 = (if existsb (Z.eqb p2) opt then 1.0 else 0.8)%float
    /\ (s1 <=? s2)%float = true.
Proof.
  intros Hr Hout Hin.
  destruct (pain_level_scoring_value ex (with_pain_level user p1) rs ws mn mx opt Hr)
    as (rs1 & ws1 & E1).
  destruct (pain_level_scoring_value ex (with_pain_level user p2) rs ws mn mx opt Hr)
    as (rs2 & ws2 & E2).
  cbn [pain_level with_pain_level] in E1, E2.
  exists (range_score mn mx opt p1), (range_score mn mx opt p2), rs1, ws1, rs2, ws2.
  split; [exact E1|]. split; [exact E2|].
  unfold range_score.
  replace ((mn <=? p1) && (p1 <=? mx))%bool with false by lia.
  replace ((mn <=? p2) && (p2 <=? mx))%bool with true by lia.
  split; [reflexivity|]. split; [reflexivity|].
  destruct (existsb _ opt); vm_compute; reflexivity.
Qed.

Lemma pain_sub_score_monotone_witness :
  range_of (get_pain_suitability gentle_hamstring_stretch 2) 5 10 [6; 7; 8]
  /\ ~ (5 <= 2 <= 10)
  /\ 5 <= 7 <= 10
  /\ exists rs1 ws1 rs2 ws2,
       pain_level_scoring gentle_hamstring_stretch
         (with_pain_level hamstring_profile 2) [] [] = Ok (0.1%float, rs1, ws1)
       /\ pain_level_scoring gentle_hamstring_stretch
            (with_pain_level hamstring_profile 7) [] [] = Ok (1.0%float, rs2, ws2).
Proof.
  assert (Hr : range_of (get_pain_suitability gentle_hamstring_stretch 2) 5 10 [6; 7; 8])
    by (repeat split; reflexivity).
  assert (Hout : ~ (5 <= 2 <= 10)) by lia.
  assert (Hin : 5 <= 7 <= 10) by lia.
  split; [exact Hr|]. split; [exact Hout|]. split; [exact Hin|].
  destruct (pain_sub_score_monotone gentle_hamstring_stretch hamstring_profile
              2 7 5 10 [6; 7; 8] [] [] Hr Hout Hin)
    as (s1 & s2 & rs1 & ws1 & rs2 & ws2 & E1 & E2 & H1 & H2 & _).
  exists rs1, ws1, rs2, ws2. subst s1 s2. split; [exact E1 | exact E2].
Defined.

(** ** The condition sub-score *)

Lemma muscle_matches_empty (muscle : string) : muscle_matches "" muscle = true.
Proof. unfold muscle_matches. now rewrite contains_empty. Qed.

(** When some muscle matches, the returned reasons hold the condition
    reason. *)
Lemma condition_reason_returned (ex : Exercise) (user : UserProfile) :
  existsb (muscle_matches (lower (condition user)))
          (primaryMuscles ex ++ secondaryMuscles ex) = true ->
  exists r,
    calculate_recommendation_score ex user = Ok r
    /\ In (condition_reason user) (reasons r).
Proof.
  intros Hmatch.
  destruct (pain_range_ok (calculate_intensity ex)) as (pmn & pmx & popt & Hp & _).
  destruct (mobility_range_ok (category_lower ex) (calculate_intensity ex))
    as (mmn & mmx & mopt & Hm & _).
  unfold calculate_recommendation_score. cbv zeta.
  destruct (pain_level_scoring_value ex user [] [] pmn pmx popt Hp) as (rs1 & ws1 & E1).
  rewrite E1. cbn [bind].
  destruct (mobility_level_scoring_value ex user rs1 ws1 mmn mmx mopt Hm) as (rs2 & ws2 & E2).
  rewrite E2. cbn [bind].
  unfold condition_matching. cbv zeta. rewrite condition_loop_existsb, Hmatch.
  unfold therapeutic_benefits_scoring. cbv zeta.
  destruct (get_therapeutic_benefits ex); eexists; (split; [reflexivity|]);
    cbn [reasons]; rewrite ?in_app_iff; cbn [In]; tauto.
Qed.

(** C9. For every exercise with at least one primary or secondary muscle
    and every profile in range whose condition is the empty string, the
    condition sub-score is 1.0 and the condition reason is appended (and
    returned), the empty string being a substring of the first muscle
    name. For any profile, the sub-score is the neutral 0.5 exactly when
    no muscle matches in either direction, which includes the empty muscle
    list. *)
Theorem empty_condition_scores_full (ex : Exercise) (user : UserProfile) (rs : list string) :
  1 <= pain_level user <= 10 ->
  1 <= mobility_level user <= 10 ->
  condition user = "" ->
  (primaryMuscles ex ++ secondaryMuscles ex)%list <> [] ->
  condition_matching ex user rs
  = (1.0%float, (rs ++ ["Specifically targets your  condition"])%list)
  /\ (exists muscle rest,
        (primaryMuscles ex ++ secondaryMuscles ex)%list = muscle :: rest
        /\ contains (lower (condition user)) (lower muscle) = true)
  /\ (exists r,
        calculate_recommendation_score ex user = Ok r
        /\ In "Specifically targets your  condition" (reasons r))
  /\ (forall user' rs',
        fst (condition_matching ex user' rs') = 0.5%float
        <-> (forall muscle,
               In muscle (primaryMuscles ex ++ secondaryMuscles ex) ->
               contains (lower (condition user')) (lower muscle) = false
               /\ contains (lower muscle) (lower (condition user')) = false)).
Proof.
  intros _ _ Hc Hne.
  destruct (primaryMuscles ex ++ secondaryMuscles ex)%list as [|m rest] eqn:Hall;
    [congruence|].
  assert (Hex : existsb (muscle_matches (lower (condition user))) (m :: rest) = true).
  { rewrite Hc. cbn [lower existsb]. now rewrite muscle_matches_empty. }
  split.
  { unfold condition_matching. cbv zeta. rewrite Hall, condition_loop_existsb, Hex.
    unfold condition_reason. now rewrite Hc. }
  split.
  { exists m, rest. split; [reflexivity|]. rewrite Hc. apply contains_empty. }
  split.
  { destruct (condition_reason_returned ex user) as (r & E & Hin).
    - now rewrite Hall.
    - exists r. split; [exact E|]. unfold condition_reason in Hin. now rewrite Hc in Hin. }
  intros user' rs'. unfold condition_matching. cbv zeta.
  rewrite Hall, condition_loop_existsb. clear Hex.
  destruct (existsb (muscle_matches (lower (condition user'))) (m :: rest)) eqn:E;
    cbn [fst].
  - split.
    + intros H. exfalso. revert H. apply float_neq; vm_compute; reflexivity.
    + intros H. apply existsb_exists in E. destruct E as (x & Hx & Hmx).
      destruct (H x Hx) as [H1 H2]. unfold muscle_matches in Hmx.
      rewrite H1, H2 in Hmx. discriminate.
  - split; [|reflexivity]. intros _ x Hx.
    assert (Hmx : muscle_matches (lower (condition user')) x = false).
    { destruct (muscle_matches (lower (condition user')) x) eqn:Hmx; [|reflexivity].
      rewrite <- E. symmetry. apply existsb_exists. now exists x. }
    unfold muscle_matches in Hmx. now apply orb_false_elim in Hmx.
Qed.

Lemma empty_condition_scores_full_witness :
  1 <= pain_level no_condition_profile <= 10
  /\ 1 <= mobility_level no_condition_profile <= 10
  /\ condition no_condition_profile = ""
  /\ (primaryMuscles ankle_circles ++ secondaryMuscles ankle_circles)%list <> []
  /\ condition_matching ankle_circles no_condition_profile []
     = (1.0%float, ["Specifically targets your  condition"]).
Proof.
  assert (Hp : 1 <= pain_level no_condition_profile <= 10) by (cbn; lia).
  assert (Hm : 1 <= mobility_level no_condition_profile <= 10) by (cbn; lia).
  assert (Hc : condition no_condition_profile = "") by reflexivity.
  assert (Hne : (primaryMuscles ankle_circles ++ secondaryMuscles ankle_circles)%list <> [])
    by discriminate.
  repeat (split; [assumption|]).
  exact (proj1 (empty_condition_scores_full ankle_circles no_condition_profile []
                  Hp Hm Hc Hne)).
Defined.

(** ** Bounds on the score *)

Lemma sub_scores_lower_bound (s : float) :
  In s sub_scores -> (0.1 <=? s)%float = true.
Proof.
  unfold sub_scores. cbn [In].
  intros [<-|[<-|[<-|[]]]]; vm_compute; reflexivity.
Qed.

Lemma condition_scores_lower_bound (s : float) :
  In s condition_scores -> (0.5 <=? s)%float = true.
Proof.
  unfold condition_scores. cbn [In].
  intros [<-|[<-|[]]]; vm_compute; reflexivity.
Qed.

Lemma benefit_scores_lower_bound (s : float) :
  In s benefit_scores -> (0 <=? s)%float = true.
Proof.
  unfold benefit_scores. cbn [In].
  intros [<-|[<-|[<-|[]]]]; vm_compute; reflexivity.
Qed.

(** C10. For every exercise and every profile in range, the returned score
    is at least 0.17: it is the rounded weighted sum of a pain sub-score
    and a mobility sub-score of at least 0.1, a condition sub-score of at
    least 0.5 and a benefit sub-score of at least 0. So no returned score
    is below 0.17, and none is 0. *)
Theorem score_at_least_0_17 (ex : Exercise) (user : UserProfile) :
  1 <= pain_level user <= 10 ->
  1 <= mobility_level user <= 10 ->
  exists r ps ms cs bs,
    calculate_recommendation_score ex user = Ok r
    /\ score r = round2 (weighted_sum ps ms cs bs)
    /\ (0.1 <=? ps)%float = true
    /\ (0.1 <=? ms)%float = true
    /\ (0.5 <=? cs)%float = true
    /\ (0 <=? bs)%float = true
    /\ (0.17 <=? score r)%float = true
    /\ (score r <? 0.17)%float = false
    /\ (score r =? 0)%float = false.
Proof.
  intros _ _.
  destruct (calculate_recommendation_score_shape ex user)
    as (ps & ms & cs & bs & rs & ws & E & Hp & Hm & Hc & Hb).
  eexists _, ps, ms, cs, bs. split; [exact E|]. cbn [score].
  split; [reflexivity|].
  split; [now apply sub_scores_lower_bound|].
  split; [now apply sub_scores_lower_bound|].
  split; [now apply condition_scores_lower_bound|].
  split; [now apply benefit_scores_lower_bound|].
  destruct (weighted_sum_grid ps ms cs bs Hp Hm Hc Hb) as [Hk ->].
  replace 0.17%float with (cents 17) by (vm_compute; reflexivity).
  replace 0%float with (cents 0) by (vm_compute; reflexivity).
  rewrite cents_leb, cents_ltb, cents_eqb by lia.
  repeat split; lia.
Qed.

Lemma score_at_least_0_17_witness :
  1 <= pain_level knee_profile <= 10
  /\ 1 <= mobility_level knee_profile <= 10
  /\ exists r,
       calculate_recommendation_score barbell_back_squat knee_profile = Ok r
       /\ (0.17 <=? score r)%float = true.
Proof.
  split; [cbn; lia|]. split; [cbn; lia|].
  destruct (score_at_least_0_17 barbell_back_squat knee_profile)
    as (r & ps & ms & cs & bs & E & _ & _ & _ & _ & _ & H & _).
  - cbn; lia.
  - cbn; lia.
  - exists r. split; [exact E | exact H].
Defined.

(** ** Score and label *)




(** C1, at three inputs. The sum 0.4 + 0.3 + 0.2 is 0.8999999999999999 in
    binary64: it is labelled good and returned rounded as 0.9, a score
    whose threshold label is excellent; another exercise gets the same
    score 0.9 with the label excellent; and the sum 0.04 + 0.3 + 0.1 + 0.06
    is 0.49999999999999994, labelled poor and returned as 0.5, whose
    threshold label is moderate. *)
Theorem label_differs_from_threshold_of_score :
  (exists r,
     calculate_recommendation_score ankle_circles calves_profile = Ok r
     /\ score r = 0.9%float
     /\ suitability r = "good"
     /\ determine_suitability (score r) = "excellent")
  /\ (exists r,
        calculate_recommendation_score calf_stretch stiff_calves_profile = Ok r
        /\ score r = 0.9%float
        /\ suitability r = "excellent")
  /\ (exists r,
        calculate_recommendation_score calf_stretch knee_pain_profile = Ok r
        /\ score r = 0.5%float
        /\ suitability r = "poor"
        /\ determine_suitability (score r) = "moderate").
Proof.
  repeat split; eexists; repeat split; vm_compute; reflexivity.
Qed.

(** ** The hamstring scenario *)

(** C3 as stated does not hold: at mobility level 4 the mobility sub-score
    of the scenario is not 0.8 and the score is not 0.94. *)
Lemma hamstring_scenario_as_stated_fails :
  ~ (calculate_intensity gentle_hamstring_stretch = "low"
     /\ (exists rs ws,
           pain_level_scoring gentle_hamstring_stretch hamstring_profile [] []
           = Ok (1.0%float, rs, ws))
     /\ get_mobility_suitability gentle_hamstring_stretch 4 = stretching_override
     /\ (exists rs ws,
           mobility_level_scoring gentle_hamstring_stretch hamstring_profile [] []
           = Ok (0.8%float, rs, ws))
     /\ fst (condition_matching gentle_hamstring_stretch hamstring_profile []) = 1.0%float
     /\ length (get_therapeutic_benefits gentle_hamstring_stretch) = 6%nat
     /\ fst (therapeutic_benefits_scoring gentle_hamstring_stretch []) = 1.0%float
     /\ (exists r,
           calculate_recommendation_score gentle_hamstring_stretch hamstring_profile = Ok r
           /\ score r = 0.94%float
           /\ suitability r = "excellent")).
Proof.
  intros (_ & _ & _ & (rs & ws & H) & _).
  apply (f_equal (fun v => match v with
                           | Ok (s, _, _) => (s =? 0.8)%float
                           | Raise _ => true
                           end)) in H.
  vm_compute in H. discriminate H.
Qed.

(** C3, amended. For the exercise named "Gentle Hamstring Stretch" of
    category "stretching" with no equipment, primary muscles ["hamstrings"]
    and no secondary muscle, whatever its other fields, and the profile
    (pain 7, mobility 4, condition "hamstring"): the tier is low, the pain
    sub-score is 1.0, the mobility range is the stretching override
    {min 1, max 10, optimal 2-5}, the mobility sub-score is 1.0 (4 is an
    optimal value), the condition sub-score is 1.0, the six benefits give
    the benefit sub-score 1.0, the score is 1.0 and the label is
    excellent. *)
Theorem hamstring_scenario (id' : string) (force' : option string) (level' : string)
    (mechanic' : option string) (instructions' images' goals' : list string) :
  let ex := {| id := id';
               name := "Gentle Hamstring Stretch";
               force := force';
               level := level';
               mechanic := mechanic';
               equipment := None;
               primaryMuscles := ["hamstrings"];
               secondaryMuscles := [];
               instructions := instructions';
               category := Some "stretching";
               images := images' |} in
  let user := {| pain_level := 7; mobility_level := 4;
                 condition := "hamstring"; goals := goals' |} in
  calculate_intensity ex = "low"
  /\ pain_level_scoring ex user [] []
     = Ok (1.0%float,
           ["Suitable for your pain level (7/10)"; "Optimal for your current pain level"],
           [])
  /\ get_mobility_suitability ex 4 = stretching_override
  /\ mobility_level_scoring ex user [] []
     = Ok (1.0%float,
           ["Appropriate for your mobility level (4/10)";
            "Perfect match for your mobility level"],
           [])
  /\ condition_matching ex user []
     = (1.0%float, ["Specifically targets your hamstring condition"])
  /\ get_therapeutic_benefits ex
     = ["improves flexibility"; "reduces muscle tension"; "increases range of motion";
        "pain relief"; "muscle relaxation"; "stress reduction"]
  /\ therapeutic_benefits_scoring ex [] = (1.0%float, ["Provides 6 therapeutic benefits"])
  /\ weighted_sum 1.0 1.0 1.0 1.0 = 0.9999999999999999%float
  /\ calculate_recommendation_score ex user
     = Ok {| exercise := ex;
             score := 1.0%float;
             reasons := ["Suitable for your pain level (7/10)";
                         "Optimal for your current pain level";
                         "Appropriate for your mobility level (4/10)";
                         "Perfect match for your mobility level";
                         "Specifically targets your hamstring condition";
                         "Provides 6 therapeutic benefits"];
             warnings := [];
             suitability := "excellent" |}.
Proof.
  intros ex user. subst ex user.
  repeat split; vm_compute; reflexivity.
Qed.

(** * The recommendation assembler *)

Lemma calculate_recommendation_score_exercise (ex : Exercise) (user : UserProfile)
    (r : RecommendationScore) :
  calculate_recommendation_score ex user = Ok r -> exercise r = ex.
Proof.
  destruct (calculate_recommendation_score_shape ex user)
    as (ps & ms & cs & bs & rs & ws & E & _).
  rewrite E. now intros [= <-].
Qed.

Lemma scored_on_scale (user : UserProfile) (l : list Exercise)
    (scored : list RecommendationScore) :
  Forall2 (fun ex r => calculate_recommendation_score ex user = Ok r) l scored ->
  Forall on_scale scored.
Proof.
  induction 1; constructor; eauto using calculate_recommendation_score_on_scale.
Qed.

Lemma filter_not_contraindicated (l : list RecommendationScore) :
  Forall (fun r => suitability r <> "contraindicated") (filter not_contraindicated l).
Proof.
  rewrite Forall_forall. intros r Hr. apply filter_In in Hr. destruct Hr as [_ Hr].
  unfold not_contraindicated in Hr. intros E. rewrite E in Hr. discriminate Hr.
Qed.

(** C2. For every catalog, every profile in range and every limit >= 0,
    [get_recommendations] returns a list of at most [limit] entries, none
    labelled contraindicated, in which every entry's score is at least the
    score of every later entry. The list is the first [limit] entries of a
    rearrangement of the entries that are not contraindicated, taken in the
    order in which the relevance filter yields their exercises, and in
    that rearrangement the entries of any one score keep this order. *)
Theorem get_recommendations_sorted_stable (catalog : list Exercise) (user : UserProfile)
    (limit : Z) :
  1 <= pain_level user <= 10 ->
  1 <= mobility_level user <= 10 ->
  0 <= limit ->
  exists scored recs sorted,
    Forall2 (fun ex r => calculate_recommendation_score ex user = Ok r)
            (filter_pt_relevant catalog) scored
    /\ get_recommendations catalog user limit = Ok recs
    /\ Z.of_nat (length recs) <= limit
    /\ Forall (fun r => suitability r <> "contraindicated") recs
    /\ StronglySorted score_ge recs
    /\ recs = firstn (Z.to_nat limit) sorted
    /\ Permutation sorted (filter not_contraindicated scored)
    /\ StronglySorted score_ge sorted
    /\ (forall v, In v (filter not_contraindicated scored) ->
          filter (same_score v) sorted
          = filter (same_score v) (filter not_contraindicated scored)).
Proof.
  intros _ _ Hlimit.
  destruct (mapM_total (fun ex => calculate_recommendation_score ex user)
              (filter_pt_relevant catalog)
              (fun ex => calculate_recommendation_score_total ex user))
    as (scored & E & HF).
  pose proof (scored_on_scale user _ _ HF) as Hscale.
  set (safe := filter not_contraindicated scored).
  assert (Hsafe : Forall on_scale safe) by now apply Forall_filter_of.
  exists scored, (firstn (Z.to_nat limit) (sort_by_score_desc safe)),
         (sort_by_score_desc safe).
  split; [exact HF|].
  split.
  { unfold get_recommendations. cbv zeta. rewrite E. cbn [bind].
    now rewrite slice_to_nonneg. }
  split.
  { pose proof (firstn_le_length (Z.to_nat limit) (sort_by_score_desc safe)). lia. }
  split.
  { apply Forall_firstn, sort_by_score_desc_Forall, filter_not_contraindicated. }
  split; [now apply StronglySorted_firstn, sort_by_score_desc_sorted|].
  split; [reflexivity|].
  split; [apply sort_by_score_desc_perm|].
  split; [now apply sort_by_score_desc_sorted|].
  intros v Hv. apply sort_by_score_desc_stable; [|assumption].
  rewrite Forall_forall in Hsafe. now apply Hsafe.
Qed.

Lemma get_recommendations_sorted_stable_witness :
  1 <= pain_level calves_profile <= 10
  /\ 1 <= mobility_level calves_profile <= 10
  /\ 0 <= 2
  /\ exists recs,
       get_recommendations
         [barbell_back_squat; ankle_circles; gentle_hamstring_stretch; calf_stretch]
         calves_profile 2 = Ok recs
       /\ Z.of_nat (length recs) <= 2
       /\ StronglySorted score_ge recs.
Proof.
  assert (Hp : 1 <= pain_level calves_profile <= 10) by (cbn; lia).
  assert (Hm : 1 <= mobility_level calves_profile <= 10) by (cbn; lia).
  assert (Hl : 0 <= 2) by lia.
  repeat (split; [assumption|]).
  destruct (get_recommendations_sorted_stable
              [barbell_back_squat; ankle_circles; gentle_hamstring_stretch; calf_stretch]
              calves_profile 2 Hp Hm Hl)
    as (scored & recs & sorted & _ & E & Hlen & _ & Hs & _).
  exists recs. auto.
Defined.

(** ** Stretching recommendations *)

Lemma pt_relevant_category (ex : Exercise) :
  pt_relevant ex = true ->
  truthy (category ex) = false \/ In (category_lower ex) pt_categories.
Proof.
  unfold pt_relevant.
  destruct (truthy (category ex)); [|auto].
  destruct (str_in (category_lower ex) pt_categories) eqn:E; cbn [negb andb].
  - intros _. right. now apply str_in_In.
  - discriminate.
Qed.

Lemma stretching_entry_category (ex : Exercise) :
  pt_relevant ex = true -> is_stretching ex = true -> stretching_category_ok ex.
Proof.
  intros Hpt Hst. apply pt_relevant_category in Hpt.
  assert (Hno : category_lower ex <> "flexibility" /\ category_lower ex <> "mobility").
  { destruct Hpt as [Hf|Hin].
    - rewrite (category_lower_falsy ex Hf). split; discriminate.
    - split; intros E; rewrite E in Hin; unfold pt_categories in Hin; cbn [In] in Hin;
        repeat destruct Hin as [Hin|Hin]; try discriminate Hin; exact Hin. }
  destruct Hno as [Hflex Hmob]. repeat split; try assumption.
  unfold is_stretching in Hst. cbv zeta in Hst. apply orb_prop in Hst.
  destruct Hst as [Hcat|Hname].
  - left. apply str_in_In in Hcat. cbn [In] in Hcat.
    destruct Hcat as [E|[E|[E|[]]]]; congruence.
  - destruct Hpt as [Hf|Hin]; [right; left | right; right]; auto.
Qed.

(** C8. For every catalog, every profile in range and every limit,
    [get_stretching_recommendations] returns a list, and the exercise of
    every entry has a category that is neither "flexibility" nor
    "mobility" once lowercased: the relevance filter ran first. The
    category is "stretching", or it is missing or empty and the name
    contains "stretch", or the name contains "stretch" and the category is
    one the relevance filter allows. *)
Theorem get_stretching_recommendations_categories (catalog : list Exercise)
    (user : UserProfile) (limit : Z) :
  1 <= pain_level user <= 10 ->
  1 <= mobility_level user <= 10 ->
  exists recs,
    get_stretching_recommendations catalog user limit = Ok recs
    /\ forall r, In r recs ->
         In (exercise r) catalog
         /\ pt_relevant (exercise r) = true
         /\ stretching_category_ok (exercise r).
Proof.
  intros _ _.
  destruct (mapM_total (fun ex => calculate_recommendation_score ex user)
              (filter is_stretching (filter_pt_relevant catalog))
              (fun ex => calculate_recommendation_score_total ex user))
    as (scored & E & HF).
  unfold get_stretching_recommendations. cbv zeta. rewrite E. cbn [bind].
  eexists. split; [reflexivity|].
  intros r Hr. apply slice_to_incl in Hr.
  apply (Permutation_in _ (sort_by_score_desc_perm _)) in Hr.
  apply filter_In in Hr. destruct Hr as [Hr _].
  destruct (Forall2_In_r _ _ _ _ HF Hr) as (ex & Hex & Hscore).
  rewrite (calculate_recommendation_score_exercise ex user r Hscore).
  apply filter_In in Hex. destruct Hex as [Hex Hst].
  unfold filter_pt_relevant in Hex. apply filter_In in Hex. destruct Hex as [Hin Hpt].
  auto using stretching_entry_category.
Qed.

Lemma get_stretching_recommendations_categories_witness :
  1 <= pain_level calves_profile <= 10
  /\ 1 <= mobility_level calves_profile <= 10
  /\ exists recs,
       get_stretching_recommendations
         [hip_mobility_drill; calf_stretch; ankle_circles] calves_profile 8 = Ok recs
       /\ forall r, In r recs -> category_lower (exercise r) <> "mobility".
Proof.
  assert (Hp : 1 <= pain_level calves_profile <= 10) by (cbn; lia).
  assert (Hm : 1 <= mobility_level calves_profile <= 10) by (cbn; lia).
  repeat (split; [assumption|]).
  destruct (get_stretching_recommendations_categories
              [hip_mobility_drill; calf_stretch; ankle_circles] calves_profile 8 Hp Hm)
    as (recs & E & H).
  exists recs. split; [exact E|].
  intros r Hr. exact (proj1 (proj2 (proj2 (proj2 (H r Hr))))).
Defined.

(** * The scoring call in closed form *)

Lemma range_of_read (d : dict) (mn mx : Z) (opt : list Z) :
  range_of d mn mx opt ->
  dict_int d "min" = mn /\ dict_int d "max" = mx /\ dict_ints d "optimal" = opt.
Proof.
  unfold range_of, getitem, dict_int, dict_ints. intros (Hmin & Hmax & Hopt).
  destruct (assoc "min" d); [|discriminate].
  destruct (assoc "max" d); [|discriminate].
  destruct (assoc "optimal" d); [|discriminate].
  injection Hmin as ->. injection Hmax as ->. injection Hopt as ->. auto.
Qed.

Lemma pain_level_scoring_exact (ex : Exercise) (user : UserProfile) (rs ws : list string) :
  pain_level_scoring ex user rs ws
  = Ok (sub_score (pain_in_range ex user) (pain_optimal ex user),
        (rs ++ (if pain_in_range ex user
                then ("Suitable for your pain level ("
                      ++ str_of_int (pain_level user) ++ "/10)")%string
                     :: (if pain_optimal ex user
                         then ["Optimal for your current pain level"] else [])
                else []))%list,
        (ws ++ (if pain_in_range ex user then [] else [pain_warning user]))%list).
Proof.
  destruct (pain_range_ok (calculate_intensity ex)) as (mn & mx & opt & Hr & _).
  destruct (range_of_read _ _ _ _ Hr) as (Hmin & Hmax & Hopt).
  unfold pain_in_range, pain_optimal, level_in_range, level_optimal, pain_level_scoring.
  change (get_pain_suitability ex (pain_level user)) with (pain_range (calculate_intensity ex)).
  rewrite (chained_le_range _ _ _ _ _ Hr), Hmin, Hmax, Hopt.
  destruct Hr as (_ & _ & Hget). rewrite Hget. cbn [bind int_in_val].
  unfold sub_score, pain_warning.
  destruct (_ && _)%bool; [destruct (existsb _ _)|];
    rewrite <- ?app_assoc, ?app_nil_r; reflexivity.
Qed.

Lemma mobility_level_scoring_exact (ex : Exercise) (user : UserProfile)
    (rs ws : list string) :
  mobility_level_scoring ex user rs ws
  = Ok (sub_score (mobility_in_range ex user) (mobility_optimal ex user),
        (rs ++ (if mobility_in_range ex user
                then ("Appropriate for your mobility level ("
                      ++ str_of_int (mobility_level user) ++ "/10)")%string
                     :: (if mobility_optimal ex user
                         then ["Perfect match for your mobility level"] else [])
                else []))%list,
        (ws ++ (if mobility_in_range ex user then [] else [mobility_warning user]))%list).
Proof.
  destruct (mobility_range_ok (category_lower ex) (calculate_intensity ex))
    as (mn & mx & opt & Hr & _).
  destruct (range_of_read _ _ _ _ Hr) as (Hmin & Hmax & Hopt).
  unfold mobility_in_range, mobility_optimal, level_in_range, level_optimal,
    mobility_level_scoring.
  change (get_mobility_suitability ex (mobility_level user))
    with (mobility_range (category_lower ex) (calculate_intensity ex)).
  rewrite (chained_le_range _ _ _ _ _ Hr), Hmin, Hmax, Hopt.
  destruct Hr as (_ & _ & Hget). rewrite Hget. cbn [bind int_in_val].
  unfold sub_score, mobility_warning.
  destruct (_ && _)%bool; [destruct (existsb _ _)|];
    rewrite <- ?app_assoc, ?app_nil_r; reflexivity.
Qed.

(** The call never raises, and its result is [expected_score]. *)
Lemma calculate_recommendation_score_expected (ex : Exercise) (user : UserProfile) :
  calculate_recommendation_score ex user = Ok (expected_score ex user).
Proof.
  unfold calculate_recommendation_score. cbv zeta.
  rewrite pain_level_scoring_exact. cbn [bind].
  rewrite mobility_level_scoring_exact. cbn [bind].
  unfold condition_matching. cbv zeta. rewrite condition_loop_existsb.
  fold (condition_matches ex user).
  unfold expected_score, expected_sum, expected_reasons, expected_warnings,
    therapeutic_benefits_scoring, benefit_sub_score, benefit_reason.
  cbv zeta.
  destruct (condition_matches ex user);
    destruct (get_therapeutic_benefits ex);
    cbn [app]; rewrite <- ?app_assoc, ?app_nil_r; cbn [app]; reflexivity.
Qed.

(** ** The table of cases *)

Lemma in_bools (b : bool) : In b [true; false].
Proof. destruct b; cbn; auto. Qed.

Lemma in_all_cases (pi po mi mo cm : bool) (b : nat) :
  (b <= 6)%nat -> In (pi, po, mi, mo, cm, b) all_cases.
Proof.
  intros Hb. unfold all_cases.
  repeat (apply in_prod; [|first [apply in_bools | apply in_seq; lia]]).
  apply in_bools.
Qed.

Lemma sub_score_cases (i o : bool) : In (sub_score i o) sub_scores.
Proof. destruct i, o; cbn; auto. Qed.

(** Every case, by evaluation: the rounded binary64 sum is the decimal
    sum, and its label is [float_label]. *)
Lemma all_cases_checked :
  forallb (fun c =>
             ((hundredths (case_sum c) =? case_points c)
              && String.eqb (determine_suitability (case_sum c)) (case_label c))%bool)
          all_cases = true.
Proof. vm_compute. reflexivity. Qed.

Lemma case_table (pi po mi mo cm : bool) (b : nat) :
  (b <= 6)%nat ->
  round2 (case_sum (pi, po, mi, mo, cm, b)) = cents (case_points (pi, po, mi, mo, cm, b))
  /\ determine_suitability (case_sum (pi, po, mi, mo, cm, b))
     = case_label (pi, po, mi, mo, cm, b)
  /\ 17 <= case_points (pi, po, mi, mo, cm, b) <= 100.
Proof.
  intros Hb. pose proof all_cases_checked as H.
  rewrite forallb_forall in H. specialize (H _ (in_all_cases pi po mi mo cm b Hb)).
  apply andb_prop in H. destruct H as [Hk Hl].
  apply Z.eqb_eq in Hk. apply String.eqb_eq in Hl.
  assert (Hcm : In (if cm then 1.0%float else 0.5%float) condition_scores)
    by (destruct cm; cbn; auto).
  destruct (weighted_sum_grid _ _ _ _ (sub_score_cases pi po) (sub_score_cases mi mo)
              Hcm (benefit_score_cases b Hb)) as [Hrange Hround].
  change (weighted_sum _ _ _ _) with (case_sum (pi, po, mi, mo, cm, b)) in Hrange, Hround.
  rewrite Hround, Hk in *. repeat split; try assumption; lia.
Qed.

(** The cases a call falls in. *)
Lemma expected_score_table (ex : Exercise) (user : UserProfile) :
  score (expected_score ex user) = cents (score_points ex user)
  /\ suitability (expected_score ex user)
     = float_label (pain_in_range ex user) (pain_optimal ex user)
                   (mobility_in_range ex user) (mobility_optimal ex user)
                   (condition_matches ex user)
                   (length (get_therapeutic_benefits ex))
  /\ 17 <= score_points ex user <= 100.
Proof.
  destruct (benefits_length ex) as (b & Hb & Hlen).
  unfold expected_score, expected_sum, score_points. cbn [score suitability].
  rewrite Hlen.
  exact (case_table (pain_in_range ex user) (pain_optimal ex user)
           (mobility_in_range ex user) (mobility_optimal ex user)
           (condition_matches ex user) b Hb).
Qed.

Lemma expected_score_on_scale (ex : Exercise) (user : UserProfile) :
  on_scale (expected_score ex user).
Proof.
  destruct (expected_score_table ex user) as (Hs & _ & Hk).
  exists (score_points ex user). auto.
Qed.

(** The scoring loop of the two assemblers. *)
Lemma mapM_scores (user : UserProfile) (l : list Exercise) :
  mapM (fun exercise => calculate_recommendation_score exercise user) l
  = Ok (map (fun ex => expected_score ex user) l).
Proof.
  induction l as [|ex l IH]; cbn [mapM map]; [reflexivity|].
  now rewrite calculate_recommendation_score_expected, IH.
Qed.

Lemma get_recommendations_ranked (catalog : list Exercise) (user : UserProfile) (limit : Z) :
  get_recommendations catalog user limit
  = Ok (slice_to limit (ranked (filter_pt_relevant catalog) user)).
Proof. unfold get_recommendations. cbv zeta. now rewrite mapM_scores. Qed.

Lemma get_stretching_recommendations_ranked (catalog : list Exercise) (user : UserProfile)
    (limit : Z) :
  get_stretching_recommendations catalog user limit
  = Ok (slice_to limit (ranked (filter is_stretching (filter_pt_relevant catalog)) user)).
Proof. unfold get_stretching_recommendations. cbv zeta. now rewrite mapM_scores. Qed.

(** A check that holds on the whole table holds for every call. *)
Lemma cases_forall (P : score_case -> bool) :
  forallb P all_cases = true ->
  forall (ex : Exercise) (user : UserProfile),
  exists b : nat,
    (b <= 6)%nat
    /\ length (get_therapeutic_benefits ex) = (3 * b)%nat
    /\ P (pain_in_range ex user, pain_optimal ex user,
          mobility_in_range ex user, mobility_optimal ex user,
          condition_matches ex user, b) = true.
Proof.
  intros H ex user. destruct (benefits_length ex) as (b & Hb & Hlen).
  exists b. repeat split; try assumption.
  rewrite forallb_forall in H. apply H. now apply in_all_cases.
Qed.

Lemma score_points_case (ex : Exercise) (user : UserProfile) (b : nat) :
  length (get_therapeutic_benefits ex) = (3 * b)%nat ->
  score_points ex user
  = case_points (pain_in_range ex user, pain_optimal ex user,
                 mobility_in_range ex user, mobility_optimal ex user,
                 condition_matches ex user, b).
Proof. intros H. unfold score_points, case_points. now rewrite H. Qed.

Lemma suitability_case (ex : Exercise) (user : UserProfile) (b : nat) :
  length (get_therapeutic_benefits ex) = (3 * b)%nat ->
  suitability (expected_score ex user)
  = case_label (pain_in_range ex user, pain_optimal ex user,
                mobility_in_range ex user, mobility_optimal ex user,
                condition_matches ex user, b).
Proof.
  intros H. destruct (expected_score_table ex user) as (_ & Hl & _).
  rewrite Hl. unfold case_label. now rewrite H.
Qed.

(** ** Exact scores *)

(** X2. The returned score is the exact decimal weighted sum
    0.4 p + 0.3 m + 0.2 c + 0.1 min(0.2 n, 1.0) of the sub-scores, as a
    whole number of hundredths: binary64 rounding errors in the
    accumulation never reach the second decimal, and rounding the
    returned score again leaves it unchanged. *)
Theorem score_is_exact_decimal_sum (ex : Exercise) (user : UserProfile) :
  exists r,
    calculate_recommendation_score ex user = Ok r
    /\ score r = cents (score_points ex user)
    /\ 100 * score_points ex user
       = 40 * sub_points (pain_in_range ex user) (pain_optimal ex user)
         + 30 * sub_points (mobility_in_range ex user) (mobility_optimal ex user)
         + 20 * (if condition_matches ex user then 100 else 50)
         + 10 * Z.min 100 (20 * Z.of_nat (length (get_therapeutic_benefits ex)))
    /\ round2 (score r) = score r.
Proof.
  exists (expected_score ex user).
  split; [apply calculate_recommendation_score_expected|].
  destruct (expected_score_table ex user) as (Hs & _ & Hk).
  split; [exact Hs|].
  destruct (cases_forall
              (fun c => let '(pi, po, mi, mo, cm, b) := c in
                        ((100 * case_points c
                          =? 40 * sub_points pi po + 30 * sub_points mi mo
                             + 20 * (if cm then 100 else 50)
                             + 10 * Z.min 100 (20 * Z.of_nat (3 * b)))
                         && (hundredths (cents (case_points c)) =? case_points c)
                         && (0 <? case_points c))%bool)
              ltac:(vm_compute; reflexivity) ex user)
    as (b & Hb & Hlen & H).
  rewrite <- (score_points_case ex user b Hlen) in H.
  apply andb_prop in H. destruct H as [H Hpos].
  apply andb_prop in H. destruct H as [Hsum Hround].
  apply Z.eqb_eq in Hsum, Hround. apply Z.ltb_lt in Hpos.
  rewrite Hlen. split; [exact Hsum|].
  rewrite Hs. unfold round2, hundredths in *.
  destruct (Prim2SF (cents (score_points ex user))) as [| | |s m e] eqn:E;
    try reflexivity.
  destruct s; [lia|].
  destruct (0 <=? e); [reflexivity|]. now rewrite Hround.
Qed.

(** ** Labels *)

(** X3. The label is the threshold label of the exact decimal score,
    except in two families of calls, where the binary64 sum falls just
    below a threshold: pain and mobility both optimal with the condition
    matched and no benefit, or not matched and at least six benefits
    (score 0.9, labelled good); pain out of range, mobility optimal, no
    match and three benefits (score 0.5, labelled poor). *)
Theorem label_is_decimal_label_except_two_families (ex : Exercise) (user : UserProfile) :
  exists r,
    calculate_recommendation_score ex user = Ok r
    /\ let pin := pain_in_range ex user in
       let popt := pain_optimal ex user in
       let min := mobility_in_range ex user in
       let mopt := mobility_optimal ex user in
       let cm := condition_matches ex user in
       let n := length (get_therapeutic_benefits ex) in
       (below_0_9 pin popt min mopt cm n = true ->
        score_points ex user = 90 /\ suitability r = "good")
       /\ (below_0_5 pin popt min mopt cm n = true ->
           score_points ex user = 50 /\ suitability r = "poor")
       /\ (below_0_9 pin popt min mopt cm n = false ->
           below_0_5 pin popt min mopt cm n = false ->
           suitability r = decimal_label (score_points ex user)).
Proof.
  exists (expected_score ex user).
  split; [apply calculate_recommendation_score_expected|]. cbv zeta.
  destruct (expected_score_table ex user) as (_ & -> & _).
  destruct (cases_forall
              (fun c => let '(pi, po, mi, mo, cm, b) := c in
                        ((if below_0_9 pi po mi mo cm (3 * b)
                          then case_points c =? 90 else true)
                         && (if below_0_5 pi po mi mo cm (3 * b)
                             then case_points c =? 50 else true)
                         && negb (below_0_9 pi po mi mo cm (3 * b)
                                  && below_0_5 pi po mi mo cm (3 * b)))%bool)
              ltac:(vm_compute; reflexivity) ex user)
    as (b & Hb & Hlen & H).
  rewrite <- (score_points_case ex user b Hlen), <- Hlen in H.
  apply andb_prop in H. destruct H as [H Hexcl].
  apply andb_prop in H. destruct H as [H9 H5].
  unfold float_label.
  destruct (below_0_9 _ _ _ _ _ _); destruct (below_0_5 _ _ _ _ _ _);
    try discriminate Hexcl; repeat split; intros; try discriminate;
    try (apply Z.eqb_eq; assumption).
Qed.

Lemma contraindicated_cases (ex : Exercise) (user : UserProfile) :
  String.eqb (suitability (expected_score ex user)) "contraindicated"
  = (negb (pain_in_range ex user) && negb (mobility_in_range ex user)
     && (negb (condition_matches ex user)
         || Nat.eqb (length (get_therapeutic_benefits ex)) 0))%bool.
Proof.
  destruct (cases_forall
              (fun c => let '(pi, po, mi, mo, cm, b) := c in
                        Bool.eqb (String.eqb (case_label c) "contraindicated")
                                 (negb pi && negb mi && (negb cm || Nat.eqb (3 * b) 0)))
              ltac:(vm_compute; reflexivity) ex user)
    as (b & Hb & Hlen & H).
  rewrite <- (suitability_case ex user b Hlen), <- Hlen in H.
  now apply Bool.eqb_prop in H.
Qed.

(** X4. An exercise is labelled contraindicated exactly when the pain
    level and the mobility level are both outside their ranges and the
    exercise does not both match the condition and carry a benefit. An
    exercise with one level in range is never contraindicated. *)
Theorem contraindicated_iff (ex : Exercise) (user : UserProfile) :
  exists r,
    calculate_recommendation_score ex user = Ok r
    /\ (suitability r = "contraindicated"
        <-> pain_in_range ex user = false
            /\ mobility_in_range ex user = false
            /\ (condition_matches ex user = false
                \/ get_therapeutic_benefits ex = [])).
Proof.
  exists (expected_score ex user).
  split; [apply calculate_recommendation_score_expected|].
  rewrite <- String.eqb_eq, contraindicated_cases.
  rewrite !andb_true_iff, orb_true_iff, !negb_true_iff, Nat.eqb_eq, length_zero_iff_nil.
  tauto.
Qed.

Lemma pain_out_of_range_cases (ex : Exercise) (user : UserProfile) :
  pain_in_range ex user = false ->
  score_points ex user <= 64
  /\ label_rank (suitability (expected_score ex user)) <= 2.
Proof.
  intros Hp.
  destruct (cases_forall
              (fun c => let '(pi, po, mi, mo, cm, b) := c in
                        (pi || ((case_points c <=? 64)
                                && (label_rank (case_label c) <=? 2)))%bool)
              ltac:(vm_compute; reflexivity) ex user)
    as (b & Hb & Hlen & H).
  rewrite <- (score_points_case ex user b Hlen),
    <- (suitability_case ex user b Hlen), Hp in H.
  cbn [orb] in H. apply andb_prop in H. destruct H as [H1 H2]. lia.
Qed.

(** X5. When the pain level is outside the exercise's pain range, the
    result carries the pain warning, its score is at most 0.64 and its
    label is moderate at best: never good, never excellent. *)
Theorem pain_warning_caps_the_label (ex : Exercise) (user : UserProfile) :
  pain_in_range ex user = false ->
  exists r,
    calculate_recommendation_score ex user = Ok r
    /\ In (pain_warning user) (warnings r)
    /\ (score r <=? 0.64)%float = true
    /\ suitability r <> "good"
    /\ suitability r <> "excellent".
Proof.
  intros Hp. exists (expected_score ex user).
  split; [apply calculate_recommendation_score_expected|].
  destruct (pain_out_of_range_cases ex user Hp) as [Hk Hl].
  destruct (expected_score_table ex user) as (Hs & _ & Hrange).
  split.
  { cbn [warnings expected_score]. unfold expected_warnings. rewrite Hp. cbn. auto. }
  split.
  { rewrite Hs. replace 0.64%float with (cents 64) by (vm_compute; reflexivity).
    rewrite cents_leb by lia. lia. }
  split; intros E; rewrite E in Hl; vm_compute in Hl; congruence.
Qed.

Lemma pain_warning_caps_the_label_witness :
  pain_in_range barbell_back_squat knee_profile = false
  /\ exists r,
       calculate_recommendation_score barbell_back_squat knee_profile = Ok r
       /\ In (pain_warning knee_profile) (warnings r)
       /\ suitability r <> "good".
Proof.
  assert (Hp : pain_in_range barbell_back_squat knee_profile = false) by reflexivity.
  split; [exact Hp|].
  destruct (pain_warning_caps_the_label barbell_back_squat knee_profile Hp)
    as (r & E & Hw & _ & Hg & _).
  exists r. auto.
Defined.

Lemma excellent_cases (ex : Exercise) (user : UserProfile) :
  suitability (expected_score ex user) = "excellent" ->
  pain_in_range ex user = true /\ mobility_in_range ex user = true.
Proof.
  intros He.
  destruct (cases_forall
              (fun c => let '(pi, po, mi, mo, cm, b) := c in
                        (negb (String.eqb (case_label c) "excellent") || (pi && mi))%bool)
              ltac:(vm_compute; reflexivity) ex user)
    as (b & Hb & Hlen & H).
  rewrite <- (suitability_case ex user b Hlen), He in H.
  cbn in H. now apply andb_prop in H.
Qed.

(** X6. A result labelled excellent has no warning: both the pain level
    and the mobility level are inside their ranges. *)
Theorem excellent_has_no_warning (ex : Exercise) (user : UserProfile)
    (r : RecommendationScore) :
  calculate_recommendation_score ex user = Ok r ->
  suitability r = "excellent" ->
  warnings r = []
  /\ pain_in_range ex user = true
  /\ mobility_in_range ex user = true.
Proof.
  rewrite calculate_recommendation_score_expected. intros [= <-] He.
  destruct (excellent_cases ex user He) as [Hp Hm].
  cbn [warnings expected_score]. unfold expected_warnings. rewrite Hp, Hm. auto.
Qed.

Lemma excellent_has_no_warning_witness :
  exists r,
    calculate_recommendation_score gentle_hamstring_stretch hamstring_profile = Ok r
    /\ suitability r = "excellent"
    /\ warnings r = [].
Proof.
  assert (E : calculate_recommendation_score gentle_hamstring_stretch hamstring_profile
              = Ok (expected_score gentle_hamstring_stretch hamstring_profile))
    by apply calculate_recommendation_score_expected.
  assert (He : suitability (expected_score gentle_hamstring_stretch hamstring_profile)
               = "excellent") by (vm_compute; reflexivity).
  exists (expected_score gentle_hamstring_stretch hamstring_profile).
  split; [exact E|]. split; [exact He|].
  exact (proj1 (excellent_has_no_warning gentle_hamstring_stretch hamstring_profile
                  _ E He)).
Defined.


(** ** What a returned entry is *)






(** ** The suitability tables *)

Lemma mobility_range_not_optimal_at_1 (category intensity : string) :
  level_optimal (mobility_range category intensity) 1 = false.
Proof.
  unfold mobility_range.
  destruct (str_in category _); [reflexivity|].
  repeat match goal with
         | |- context [String.eqb category ?b] =>
             destruct (String.eqb category b); [reflexivity|]
         end.
  unfold dict_get, mobility_intensity_ranges, default_range. cbn [assoc].
  repeat match goal with
         | |- context [String.eqb intensity ?b] =>
             destruct (String.eqb intensity b); [reflexivity|]
         end.
  reflexivity.
Qed.

Lemma not_mobility_optimal_cases (ex : Exercise) (user : UserProfile) :
  mobility_optimal ex user = false -> score_points ex user <= 94.
Proof.
  intros Hm.
  destruct (cases_forall
              (fun c => let '(pi, po, mi, mo, cm, b) := c in
                        (mo || (case_points c <=? 94))%bool)
              ltac:(vm_compute; reflexivity) ex user)
    as (b & Hb & Hlen & H).
  rewrite <- (score_points_case ex user b Hlen), Hm in H. cbn [orb] in H. lia.
Qed.

(** X9. No mobility range has 1 among its optimal values, so a user
    whose mobility level is 1 never gets the reason "Perfect match for
    your mobility level" and never a score above 0.94, whatever the
    exercise. *)
Theorem mobility_level_1_is_never_optimal (ex : Exercise) (user : UserProfile) :
  mobility_level user = 1 ->
  exists r,
    calculate_recommendation_score ex user = Ok r
    /\ mobility_optimal ex user = false
    /\ ~ In "Perfect match for your mobility level" (reasons r)
    /\ (score r <=? 0.94)%float = true.
Proof.
  intros H1. exists (expected_score ex user).
  split; [apply calculate_recommendation_score_expected|].
  assert (Hm : mobility_optimal ex user = false).
  { unfold mobility_optimal. rewrite H1. apply mobility_range_not_optimal_at_1. }
  split; [exact Hm|].
  split.
  - cbn [reasons expected_score]. unfold expected_reasons. rewrite Hm.
    unfold condition_reason, benefit_reason.
    rewrite !in_app_iff.
    destruct (pain_in_range ex user); [destruct (pain_optimal ex user)|];
      destruct (mobility_in_range ex user);
      destruct (condition_matches ex user);
      destruct (get_therapeutic_benefits ex);
      cbn [In append]; intros H;
      repeat match goal with
             | H : _ \/ _ |- _ => destruct H as [H|H]
             | H : False |- _ => destruct H
             | H : String _ _ = String _ _ |- _ => discriminate H
             end.
  - pose proof (not_mobility_optimal_cases ex user Hm) as Hk.
    destruct (expected_score_table ex user) as (-> & _ & Hrange).
    replace 0.94%float with (cents 94) by (vm_compute; reflexivity).
    rewrite cents_leb by lia. lia.
Qed.

Lemma mobility_level_1_is_never_optimal_witness :
  mobility_level low_mobility_profile = 1
  /\ exists r,
       calculate_recommendation_score gentle_hamstring_stretch low_mobility_profile = Ok r
       /\ (score r <=? 0.94)%float = true.
Proof.
  assert (H1 : mobility_level low_mobility_profile = 1) by reflexivity.
  split; [exact H1|].
  destruct (mobility_level_1_is_never_optimal gentle_hamstring_stretch
              low_mobility_profile H1) as (r & E & _ & _ & Hs).
  exists r. auto.
Defined.

(** X10. The default range {min 1, max 10, optimal [5]} is dead code on
    both axes: the classifier only returns tiers of the tables, so the
    pain range of an exercise is always one of the five rows of the pain
    table, and neither range is ever the default. *)
Theorem default_range_is_never_returned (ex : Exercise) (n : Z) :
  In (get_pain_suitability ex n) (map snd pain_intensity_ranges)
  /\ get_pain_suitability ex n <> default_range
  /\ get_mobility_suitability ex n <> default_range.
Proof.
  pose proof (calculate_intensity_five ex) as Ht.
  unfold get_pain_suitability, get_mobility_suitability, mobility_range. cbv zeta.
  unfold five_tiers in Ht. cbn [In] in Ht.
  split; [|split].
  - destruct Ht as [<-|[<-|[<-|[<-|[<-|[]]]]]]; cbn; tauto.
  - destruct Ht as [<-|[<-|[<-|[<-|[<-|[]]]]]]; discriminate.
  - destruct (str_in (category_lower ex) _); [discriminate|].
    repeat match goal with
           | |- context [String.eqb (category_lower ex) ?b] =>
               destruct (String.eqb (category_lower ex) b); [discriminate|]
           end.
    destruct Ht as [<-|[<-|[<-|[<-|[<-|[]]]]]]; discriminate.
Qed.

(** X11. The relevance filter admits no exercise of category balance,
    mobility or flexibility, so for an exercise that passes it the
    mobility range is never the balance range {min 3, max 10, optimal
    4-7}: that special case is unreachable from both assemblers. *)
Theorem balance_range_is_unreachable_after_the_filter (ex : Exercise) (n : Z) :
  pt_relevant ex = true ->
  ~ In (category_lower ex) ["balance"; "mobility"; "flexibility"]
  /\ get_mobility_suitability ex n <> balance_range.
Proof.
  intros Hpt. apply pt_relevant_category in Hpt.
  assert (Hno : ~ In (category_lower ex) ["balance"; "mobility"; "flexibility"]).
  { destruct Hpt as [Hf|Hin].
    - rewrite (category_lower_falsy ex Hf). cbn [In]. intros [H|[H|[H|[]]]]; discriminate H.
    - cbn [In]. intros [H|[H|[H|[]]]]; rewrite <- H in Hin;
        unfold pt_categories in Hin; cbn [In] in Hin;
        repeat destruct Hin as [Hin|Hin]; try discriminate Hin; exact Hin. }
  split; [exact Hno|].
  unfold get_mobility_suitability, mobility_range, balance_range. cbv zeta.
  destruct (str_in (category_lower ex) _); [discriminate|].
  destruct (String.eqb_spec (category_lower ex) "balance") as [E|_].
  { exfalso. apply Hno. rewrite E. cbn. auto. }
  repeat match goal with
         | |- context [String.eqb (category_lower ex) ?b] =>
             destruct (String.eqb (category_lower ex) b); [discriminate|]
         end.
  unfold dict_get, mobility_intensity_ranges, default_range. cbn [assoc].
  repeat match goal with
         | |- context [String.eqb (calculate_intensity ex) ?b] =>
             destruct (String.eqb (calculate_intensity ex) b); [discriminate|]
         end.
  discriminate.
Qed.

Lemma balance_range_is_unreachable_after_the_filter_witness :
  pt_relevant barbell_back_squat = true
  /\ get_mobility_suitability barbell_back_squat 3 <> balance_range.
Proof.
  assert (Hpt : pt_relevant barbell_back_squat = true) by reflexivity.
  split; [exact Hpt|].
  exact (proj2 (balance_range_is_unreachable_after_the_filter barbell_back_squat 3 Hpt)).
Defined.

(** ** The classifier *)

(** X12. The category sets a floor for the tier and name keywords can
    only raise it: a strength or powerlifting exercise is high or
    very-high, a cardio or olympic weightlifting exercise at least
    moderate, a stretching, flexibility or mobility exercise at least low
    (never very-low). *)
Theorem category_is_a_floor_for_the_tier (ex : Exercise) :
  category_floor (category_lower ex) <= tier_rank (calculate_intensity ex).
Proof.
  unfold calculate_intensity, category_floor. cbv zeta.
  repeat match goal with
         | |- context [if ?c then _ else _] =>
             lazymatch c with
             | String.eqb _ _ => fail
             | _ => destruct c
             end
         end;
    try (vm_compute; discriminate).
  unfold dict_get, level_map. cbn [assoc].
  repeat match goal with
         | |- context [String.eqb (level ex) ?b] => destruct (String.eqb (level ex) b)
         end; vm_compute; discriminate.
Qed.

(** X13. The tier very-low is only reached through a name keyword
    (passive, rest, meditation, mindfulness) on an exercise whose category
    is in none of the category lists; the declared level never gives
    it. *)
Theorem very_low_only_by_keyword (ex : Exercise) :
  calculate_intensity ex = "very-low" ->
  any_word_in very_low_keywords (lower (name ex)) = true
  /\ category_floor (category_lower ex) = 0
  /\ dict_get level_map (level ex) "moderate" <> "very-low".
Proof.
  unfold calculate_intensity, category_floor, very_low_keywords. cbv zeta.
  intros H.
  assert (Hlevel : dict_get level_map (level ex) "moderate" <> "very-low").
  { unfold dict_get, level_map. cbn [assoc].
    repeat match goal with
           | |- context [String.eqb (level ex) ?b] => destruct (String.eqb (level ex) b)
           end; discriminate. }
  destruct (any_word_in ["jump"; "explosive"; "plyometric"; "sprint"; "burpee"] _);
    [discriminate H|].
  destruct (any_word_in ["squat"; "deadlift"; "press"; "pull"; "push"; "weight"; "heavy"] _);
    [discriminate H|].
  destruct (str_in (category_lower ex) ["strength"; "powerlifting"]); [discriminate H|].
  destruct (any_word_in ["bridge"; "plank"; "lunge"; "step"; "walk"] _); [discriminate H|].
  destruct (str_in (category_lower ex) ["cardio"; "olympic weightlifting"]);
    [discriminate H|].
  destruct (any_word_in ["stretch"; "gentle"; "slow"; "breathing"] _); [discriminate H|].
  destruct (str_in (category_lower ex) ["stretching"; "flexibility"; "mobility"]);
    [discriminate H|].
  destruct (any_word_in ["passive"; "rest"; "meditation"; "mindfulness"] _);
    [auto | contradiction].
Qed.

Lemma very_low_only_by_keyword_witness :
  calculate_intensity guided_meditation = "very-low"
  /\ any_word_in very_low_keywords (lower (name guided_meditation)) = true.
Proof.
  assert (H : calculate_intensity guided_meditation = "very-low") by reflexivity.
  split; [exact H|].
  exact (proj1 (very_low_only_by_keyword guided_meditation H)).
Defined.

(** ** The relevance filter *)

Lemma excluded_not_allowed (eq : string) :
  str_in eq excluded_equipment = true -> str_in eq pt_equipment = false.
Proof.
  intros H. apply str_in_In in H. unfold excluded_equipment in H. cbn [In] in H.
  destruct H as [<-|[<-|[<-|[<-|[]]]]]; reflexivity.
Qed.

Lemma pt_relevant_allow_lists (ex : Exercise) :
  pt_relevant ex
  = ((negb (truthy (category ex)) || str_in (category_lower ex) pt_categories)
     && match equipment ex with
        | Some eq => negb (truthy (Some eq)) || str_in (lower eq) pt_equipment
        | None => true
        end)%bool.
Proof.
  unfold pt_relevant.
  destruct (truthy (category ex)); cbn [negb andb orb];
    [destruct (str_in (category_lower ex) pt_categories); cbn [negb andb]; [|reflexivity]|];
    (destruct (equipment ex) as [eq|]; [|reflexivity]);
    (destruct (truthy (Some eq)); cbn [negb orb]; [|reflexivity]);
    (destruct (str_in (lower eq) excluded_equipment) eqn:Hex;
     [now rewrite (excluded_not_allowed _ Hex)|]);
    now destruct (str_in (lower eq) pt_equipment).
Qed.

(** X14. The relevance filter keeps an exercise exactly when its category
    is missing, empty or allowed and its equipment is missing, empty or
    allowed. No denied equipment is among the allowed ones, so the deny
    list never decides: everything it rejects the allow list rejects
    too. *)
Theorem relevance_filter_is_two_allow_lists (ex : Exercise) :
  (pt_relevant ex = true
   <-> (truthy (category ex) = false \/ In (category_lower ex) pt_categories)
       /\ (forall eq, equipment ex = Some eq ->
             truthy (Some eq) = false \/ In (lower eq) pt_equipment))
  /\ (forall eq, In eq excluded_equipment -> ~ In eq pt_equipment).
Proof.
  split.
  - rewrite pt_relevant_allow_lists, andb_true_iff, orb_true_iff, negb_true_iff, str_in_In.
    destruct (equipment ex) as [eq|].
    + rewrite orb_true_iff, negb_true_iff, str_in_In. split.
      * intros [Hc He]. split; [exact Hc|]. now intros eq' [= <-].
      * intros [Hc He]. split; [exact Hc|]. now apply He.
    + split; [|tauto]. intros [Hc _]. split; [exact Hc|]. intros eq H. discriminate H.
  - intros eq Hex Hal. apply str_in_In in Hex, Hal.
    rewrite (excluded_not_allowed _ Hex) in Hal. discriminate Hal.
Qed.

(** ** Therapeutic benefits *)

(** X15. The benefit list holds three entries per bucket that fires, at
    most eighteen, so the singular wording of the benefit reason is never
    used: either the list is empty, no reason is added and the sub-score
    is 0.0, or the reason reads "Provides n therapeutic benefits" with n
    at least 3, and the sub-score is 1.0 from six benefits on. *)
Theorem benefit_reason_is_always_plural (ex : Exercise) (rs : list string) :
  let n := length (get_therapeutic_benefits ex) in
  (exists b : nat, (b <= 6)%nat /\ n = (3 * b)%nat)
  /\ ((n = 0%nat /\ therapeutic_benefits_scoring ex rs = (0.0%float, rs))
      \/ ((3 <= n)%nat
          /\ therapeutic_benefits_scoring ex rs
             = ((if Nat.leb 6 n then 1.0 else 0.6000000000000001)%float,
                (rs ++ [("Provides " ++ str_of_int (Z.of_nat n)
                         ++ " therapeutic benefits")%string])%list))).
Proof.
  cbv zeta. destruct (benefits_length ex) as (b & Hb & Hlen).
  split; [now exists b|].
  unfold therapeutic_benefits_scoring. cbv zeta.
  destruct (get_therapeutic_benefits ex) as [|x l] eqn:E.
  - left. split; [reflexivity|]. vm_compute. reflexivity.
  - right. split; [cbn [length] in *; lia|].
    replace (1 <? Z.of_nat (length (x :: l))) with true
      by (symmetry; apply Z.ltb_lt; cbn [length] in *; lia).
    f_equal. rewrite Hlen.
    destruct b as [|b]; [cbn [length] in Hlen; lia|].
    do 6 (destruct b as [|b]; [vm_compute; reflexivity|]). lia.
Qed.

(** ** The limit *)

Lemma ranked_length (l : list Exercise) (user : UserProfile) :
  (length (ranked l user) <= length l)%nat.
Proof.
  unfold ranked.
  rewrite (Permutation_length (sort_by_score_desc_perm _)).
  etransitivity; [apply filter_length_le|]. now rewrite length_map.
Qed.

Lemma filter_pt_relevant_length (catalog : list Exercise) :
  (length (filter_pt_relevant catalog) <= length catalog)%nat.
Proof. apply filter_length_le. Qed.

(** With a limit of at least the catalog size the slice keeps
    everything. *)
Lemma get_recommendations_full (catalog : list Exercise) (user : UserProfile) (limit : Z) :
  Z.of_nat (length catalog) <= limit ->
  get_recommendations catalog user limit = Ok (ranked (filter_pt_relevant catalog) user).
Proof.
  intros H. rewrite get_recommendations_ranked, slice_to_nonneg by lia.
  rewrite firstn_all2; [reflexivity|].
  pose proof (ranked_length (filter_pt_relevant catalog) user).
  pose proof (filter_pt_relevant_length catalog). lia.
Qed.

(** X16. A smaller limit gives a prefix of what a larger limit gives:
    for 0 <= n <= m the list for n is the first n entries of the list for
    m. In particular limit 0 gives the empty list. *)
Theorem smaller_limit_gives_a_prefix (catalog : list Exercise) (user : UserProfile)
    (n m : Z) :
  0 <= n <= m ->
  exists recs,
    get_recommendations catalog user m = Ok recs
    /\ get_recommendations catalog user n = Ok (firstn (Z.to_nat n) recs)
    /\ get_recommendations catalog user 0 = Ok [].
Proof.
  intros H. rewrite !get_recommendations_ranked, !slice_to_nonneg by lia.
  eexists. split; [reflexivity|]. split; [|reflexivity].
  rewrite firstn_firstn. do 2 f_equal. lia.
Qed.

Lemma smaller_limit_gives_a_prefix_witness :
  0 <= 1 <= 3
  /\ exists recs,
       get_recommendations sample_catalog calves_profile 3 = Ok recs
       /\ get_recommendations sample_catalog calves_profile 1 = Ok (firstn 1 recs).
Proof.
  assert (H : 0 <= 1 <= 3) by lia.
  split; [exact H|].
  destruct (smaller_limit_gives_a_prefix sample_catalog calves_profile 1 3 H)
    as (recs & E3 & E1 & _).
  exists recs. auto.
Defined.

(** X17. A negative limit is a Python slice bound counted from the end:
    the call returns the complete ranking (the list for a limit of the
    catalog size) without its last -limit entries, so the entries dropped
    are the lowest ranked, and nothing is returned once -limit reaches
    the length of the ranking. *)
Theorem negative_limit_drops_the_last_entries (catalog : list Exercise)
    (user : UserProfile) (limit : Z) :
  limit < 0 ->
  exists full,
    get_recommendations catalog user (Z.of_nat (length catalog)) = Ok full
    /\ get_recommendations catalog user limit
       = Ok (firstn (length full - Z.to_nat (- limit)) full)
    /\ (Z.of_nat (length full) <= - limit ->
        get_recommendations catalog user limit = Ok []).
Proof.
  intros H. rewrite (get_recommendations_full catalog user) by lia.
  eexists. split; [reflexivity|].
  rewrite get_recommendations_ranked. unfold slice_to.
  destruct (Z.ltb_spec limit 0); [|lia].
  set (full := ranked (filter_pt_relevant catalog) user).
  replace (Z.to_nat (Z.max 0 (Z.of_nat (length full) + limit)))
    with (length full - Z.to_nat (- limit))%nat by lia.
  split; [reflexivity|].
  intros Hall. replace (length full - Z.to_nat (- limit))%nat with 0%nat by lia.
  reflexivity.
Qed.

Lemma negative_limit_drops_the_last_entries_witness :
  -1 < 0
  /\ exists full,
       get_recommendations sample_catalog calves_profile
         (Z.of_nat (length sample_catalog)) = Ok full
       /\ get_recommendations sample_catalog calves_profile (-1)
          = Ok (firstn (length full - 1) full).
Proof.
  assert (H : -1 < 0) by lia.
  split; [exact H|].
  destruct (negative_limit_drops_the_last_entries sample_catalog calves_profile (-1) H)
    as (full & E & En & _).
  exists full. auto.
Defined.

(** X18. With a limit of at least the catalog size nothing is left out:
    every catalog exercise that passes the relevance filter and whose
    score is not labelled contraindicated is returned with that score. *)
Theorem large_limit_returns_every_safe_entry (catalog : list Exercise)
    (user : UserProfile) (limit : Z) :
  Z.of_nat (length catalog) <= limit ->
  exists recs,
    get_recommendations catalog user limit = Ok recs
    /\ forall ex r,
         In ex catalog -> pt_relevant ex = true ->
         calculate_recommendation_score ex user = Ok r ->
         suitability r <> "contraindicated" ->
         In r recs.
Proof.
  intros H. rewrite get_recommendations_full by assumption.
  eexists. split; [reflexivity|].
  intros ex r Hin Hpt Hscore Hs.
  rewrite calculate_recommendation_score_expected in Hscore. injection Hscore as <-.
  unfold ranked.
  apply (Permutation_in _ (Permutation_sym (sort_by_score_desc_perm _))).
  apply filter_In. split.
  - apply (in_map (fun ex => expected_score ex user)).
    unfold filter_pt_relevant. apply filter_In. auto.
  - unfold not_contraindicated.
    destruct (String.eqb_spec (suitability (expected_score ex user)) "contraindicated");
      [contradiction | reflexivity].
Qed.

Lemma large_limit_returns_every_safe_entry_witness :
  Z.of_nat (length sample_catalog) <= 10
  /\ exists recs,
       get_recommendations sample_catalog calves_profile 10 = Ok recs
       /\ In (expected_score calf_stretch calves_profile) recs.
Proof.
  assert (H : Z.of_nat (length sample_catalog) <= 10) by (cbn; lia).
  split; [exact H|].
  destruct (large_limit_returns_every_safe_entry sample_catalog calves_profile 10 H)
    as (recs & E & Hall).
  exists recs. split; [exact E|].
  apply (Hall calf_stretch).
  - cbn. auto.
  - reflexivity.
  - apply calculate_recommendation_score_expected.
  - vm_compute. discriminate.
Defined.

(** ** The two assemblers together *)

Lemma ranked_on_scale (l : list Exercise) (user : UserProfile) :
  Forall on_scale (filter not_contraindicated (map (fun ex => expected_score ex user) l)).
Proof.
  apply Forall_filter_of. rewrite Forall_forall. intros r Hr.
  apply in_map_iff in Hr. destruct Hr as (ex & <- & _). apply expected_score_on_scale.
Qed.

(** An entry that nothing in a descending list exceeds goes to the
    front. *)
Lemma insert_desc_front (x : RecommendationScore) (l : list RecommendationScore) :
  on_scale x -> Forall on_scale l -> Forall (score_ge x) l ->
  insert_desc x l = x :: l.
Proof.
  intros Hx Hl Hge. destruct l as [|y l]; [reflexivity|]. cbn [insert_desc].
  inversion Hl as [|? ? Hy _]; subst. inversion Hge as [|? ? Hxy _]; subst.
  replace (score x <? score y)%float with false; [reflexivity|].
  symmetry. scale_cmp. lia.
Qed.

(** A stable sort commutes with a filter. *)
Lemma filter_insert_desc (q : RecommendationScore -> bool) (x : RecommendationScore)
    (l : list RecommendationScore) :
  on_scale x -> Forall on_scale l -> StronglySorted score_ge l ->
  filter q (insert_desc x l)
  = if q x then insert_desc x (filter q l) else filter q l.
Proof.
  intros Hx Hl Hs. induction l as [|y l IH]; cbn [insert_desc].
  - cbn [filter]. now destruct (q x).
  - inversion Hl as [|? ? Hy Hl']; subst. inversion Hs as [|? ? Hs' Hall]; subst.
    destruct (score x <? score y)%float eqn:Hlt.
    + cbn [filter]. rewrite (IH Hl' Hs').
      destruct (q y), (q x); cbn [insert_desc]; rewrite ?Hlt; reflexivity.
    + change (filter q (x :: y :: l))
        with (if q x then x :: filter q (y :: l) else filter q (y :: l)).
      destruct (q x); [|reflexivity].
      symmetry. apply insert_desc_front; [assumption| |].
      * apply Forall_filter_of. now constructor.
      * apply Forall_filter_of.
        assert (Hxy : score_ge x y) by now apply score_ge_of_not_lt.
        constructor; [assumption|].
        rewrite Forall_forall in *. intros z Hz.
        apply (score_ge_trans x y z); auto.
Qed.

Lemma filter_sort_by_score_desc (q : RecommendationScore -> bool)
    (l : list RecommendationScore) :
  Forall on_scale l ->
  filter q (sort_by_score_desc l) = sort_by_score_desc (filter q l).
Proof.
  intros Hl. induction l as [|x l IH]; cbn [sort_by_score_desc filter]; [reflexivity|].
  inversion Hl; subst.
  rewrite filter_insert_desc
    by auto using sort_by_score_desc_Forall, sort_by_score_desc_sorted.
  rewrite IH by assumption. now destruct (q x).
Qed.

Lemma filter_filter_swap {A : Type} (p q : A -> bool) (l : list A) :
  filter p (filter q l) = filter q (filter p l).
Proof.
  induction l as [|x l IH]; cbn [filter]; [reflexivity|].
  destruct (p x) eqn:Hp, (q x) eqn:Hq; cbn [filter]; rewrite ?Hp, ?Hq, IH; reflexivity.
Qed.

Lemma map_expected_score_filter (user : UserProfile) (l : list Exercise) :
  map (fun ex => expected_score ex user) (filter is_stretching l)
  = filter entry_is_stretching (map (fun ex => expected_score ex user) l).
Proof.
  induction l as [|ex l IH]; cbn [filter map]; [reflexivity|].
  unfold entry_is_stretching at 1. cbn [exercise expected_score].
  destruct (is_stretching ex); cbn [map]; now rewrite IH.
Qed.

Lemma ranked_stretching (l : list Exercise) (user : UserProfile) :
  ranked (filter is_stretching l) user = filter entry_is_stretching (ranked l user).
Proof.
  unfold ranked.
  rewrite filter_sort_by_score_desc by apply ranked_on_scale.
  now rewrite map_expected_score_filter, filter_filter_swap.
Qed.

(** X19. The stretching list is the general ranking restricted to the
    exercises that pass the stretching test, cut to the limit: for every
    limit >= 0 it is the first [limit] entries of the complete general
    ranking (the list for a limit of the catalog size) filtered by the
    stretching test, in the same order. *)
Theorem stretching_list_is_the_filtered_general_list (catalog : list Exercise)
    (user : UserProfile) (limit : Z) :
  0 <= limit ->
  exists full,
    get_recommendations catalog user (Z.of_nat (length catalog)) = Ok full
    /\ get_stretching_recommendations catalog user limit
       = Ok (firstn (Z.to_nat limit) (filter entry_is_stretching full)).
Proof.
  intros H. rewrite (get_recommendations_full catalog user) by lia.
  eexists. split; [reflexivity|].
  rewrite get_stretching_recommendations_ranked, slice_to_nonneg by assumption.
  now rewrite ranked_stretching.
Qed.

Lemma stretching_list_is_the_filtered_general_list_witness :
  0 <= 8
  /\ exists full,
       get_recommendations sample_catalog calves_profile
         (Z.of_nat (length sample_catalog)) = Ok full
       /\ get_stretching_recommendations sample_catalog calves_profile 8
          = Ok (firstn 8 (filter entry_is_stretching full)).
Proof.
  assert (H : 0 <= 8) by lia.
  split; [exact H|].
  exact (stretching_list_is_the_filtered_general_list sample_catalog calves_profile 8 H).
Defined.

(** ** Scores against labels *)

Lemma label_monotone_checked :
  forallb (fun c1 =>
             forallb (fun c2 =>
                        (negb (case_points c1 <? case_points c2)
                         || (label_rank (case_label c1) <=? label_rank (case_label c2)))%bool)
                     all_cases)
          all_cases = true.
Proof. vm_compute. reflexivity. Qed.

(** X20. Of two results, for any exercises and profiles, the one with
    the strictly higher score never has the worse label (in the order
    contraindicated, poor, moderate, good, excellent); equal scores may
    still carry different labels. *)
Theorem higher_score_never_has_a_worse_label (ex1 ex2 : Exercise) (user1 user2 : UserProfile)
    (r1 r2 : RecommendationScore) :
  calculate_recommendation_score ex1 user1 = Ok r1 ->
  calculate_recommendation_score ex2 user2 = Ok r2 ->
  (score r1 <? score r2)%float = true ->
  label_rank (suitability r1) <= label_rank (suitability r2).
Proof.
  rewrite !calculate_recommendation_score_expected. intros [= <-] [= <-] Hlt.
  destruct (benefits_length ex1) as (b1 & Hb1 & Hlen1).
  destruct (benefits_length ex2) as (b2 & Hb2 & Hlen2).
  pose proof label_monotone_checked as H.
  rewrite forallb_forall in H.
  specialize (H _ (in_all_cases (pain_in_range ex1 user1) (pain_optimal ex1 user1)
                     (mobility_in_range ex1 user1) (mobility_optimal ex1 user1)
                     (condition_matches ex1 user1) b1 Hb1)).
  rewrite forallb_forall in H.
  specialize (H _ (in_all_cases (pain_in_range ex2 user2) (pain_optimal ex2 user2)
                     (mobility_in_range ex2 user2) (mobility_optimal ex2 user2)
                     (condition_matches ex2 user2) b2 Hb2)).
  rewrite <- (score_points_case ex1 user1 b1 Hlen1),
    <- (score_points_case ex2 user2 b2 Hlen2),
    <- (suitability_case ex1 user1 b1 Hlen1),
    <- (suitability_case ex2 user2 b2 Hlen2) in H.
  destruct (expected_score_table ex1 user1) as (Hs1 & _ & Hk1).
  destruct (expected_score_table ex2 user2) as (Hs2 & _ & Hk2).
  rewrite Hs1, Hs2, cents_ltb in Hlt by lia.
  rewrite Hlt in H. cbn [negb orb] in H. lia.
Qed.

Lemma higher_score_never_has_a_worse_label_witness :
  exists r1 r2,
    calculate_recommendation_score barbell_back_squat knee_profile = Ok r1
    /\ calculate_recommendation_score calf_stretch calves_profile = Ok r2
    /\ (score r1 <? score r2)%float = true
    /\ label_rank (suitability r1) <= label_rank (suitability r2).
Proof.
  assert (E1 : calculate_recommendation_score barbell_back_squat knee_profile
               = Ok (expected_score barbell_back_squat knee_profile))
    by apply calculate_recommendation_score_expected.
  assert (E2 : calculate_recommendation_score calf_stretch calves_profile
               = Ok (expected_score calf_stretch calves_profile))
    by apply calculate_recommendation_score_expected.
  assert (Hlt : (score (expected_score barbell_back_squat knee_profile)
                 <? score (expected_score calf_stretch calves_profile))%float = true)
    by (vm_compute; reflexivity).
  eexists _, _. split; [exact E1|]. split; [exact E2|]. split; [exact Hlt|].
  exact (higher_score_never_has_a_worse_label _ _ _ _ _ _ E1 E2 Hlt).
Defined.

(** ** The order of the catalog *)

Lemma Permutation_filter {A : Type} (f : A -> bool) (l l' : list A) :
  Permutation l l' -> Permutation (filter f l) (filter f l').
Proof.
  induction 1 as [|x l l' _ IH|x y l|l l' l'' _ IH1 _ IH2]; cbn [filter].
  - constructor.
  - destruct (f x); [now constructor | assumption].
  - destruct (f x), (f y); try reflexivity. apply perm_swap.
  - now transitivity (filter f l').
Qed.

(** Two descending lists of integers with the same elements are equal. *)
Lemma sorted_permutation_eq (l l' : list Z) :
  StronglySorted (fun a b => b <= a) l ->
  StronglySorted (fun a b => b <= a) l' ->
  Permutation l l' -> l = l'.
Proof.
  intros Hs. revert l'. induction Hs as [|x l Hs IH Hx]; intros l' Hs' Hp.
  - apply Permutation_nil in Hp. now subst.
  - destruct Hs' as [|y l' Hs' Hy].
    + apply Permutation_sym, Permutation_nil in Hp. discriminate Hp.
    + assert (x = y).
      { rewrite Forall_forall in Hx, Hy.
        assert (Hxin : In x (y :: l')) by (apply (Permutation_in _ Hp); now left).
        assert (Hyin : In y (x :: l))
          by (apply (Permutation_in _ (Permutation_sym Hp)); now left).
        destruct Hxin as [->|Hxin]; [reflexivity|].
        destruct Hyin as [->|Hyin]; [reflexivity|].
        specialize (Hx _ Hyin). specialize (Hy _ Hxin). lia. }
      subst y. f_equal. apply IH; [assumption|].
      now apply Permutation_cons_inv in Hp.
Qed.

Lemma hundredths_cents (k : Z) : 0 <= k <= 100 -> hundredths (cents k) = k.
Proof.
  intros H.
  assert (Hall : forallb (fun k => hundredths (cents k) =? k) scale = true)
    by (vm_compute; reflexivity).
  rewrite forallb_forall in Hall. apply Z.eqb_eq, Hall. now apply in_scale.
Qed.

Lemma sorted_points (l : list RecommendationScore) :
  Forall on_scale l -> StronglySorted score_ge l ->
  StronglySorted (fun a b => b <= a) (map (fun r => hundredths (score r)) l).
Proof.
  intros Hl Hs. induction Hs as [|x l Hs IH Hx]; cbn [map]; constructor.
  - apply IH. now inversion Hl.
  - inversion Hl as [|? ? Hxs Hl']; subst.
    rewrite Forall_map. rewrite Forall_forall in *. intros z Hz.
    specialize (Hx z Hz). specialize (Hl' z Hz).
    destruct Hxs as (kx & Hkx & Ex). destruct Hl' as (kz & Hkz & Ez).
    unfold score_ge in Hx. rewrite Ex, Ez in *.
    rewrite cents_leb in Hx by lia. rewrite !hundredths_cents by lia. lia.
Qed.

Lemma scores_of_points (l : list RecommendationScore) :
  Forall on_scale l ->
  map score l = map cents (map (fun r => hundredths (score r)) l).
Proof.
  induction 1 as [|x l (k & Hk & E) _ IH]; cbn [map]; [reflexivity|].
  rewrite IH, E, hundredths_cents by lia. reflexivity.
Qed.

Lemma ranked_scores_permutation (l l' : list Exercise) (user : UserProfile) :
  Permutation l l' ->
  Permutation (ranked l user) (ranked l' user)
  /\ map score (ranked l user) = map score (ranked l' user).
Proof.
  intros Hp.
  assert (Hperm : Permutation (ranked l user) (ranked l' user)).
  { unfold ranked. rewrite !sort_by_score_desc_perm.
    now apply Permutation_filter, Permutation_map. }
  split; [exact Hperm|].
  assert (Hon : forall l0, Forall on_scale (ranked l0 user))
    by (intros l0; apply sort_by_score_desc_Forall, ranked_on_scale).
  assert (Hso : forall l0, StronglySorted score_ge (ranked l0 user))
    by (intros l0; apply sort_by_score_desc_sorted, ranked_on_scale).
  rewrite !scores_of_points by apply Hon. f_equal.
  apply sorted_permutation_eq; try (apply sorted_points; auto).
  now apply Permutation_map.
Qed.

Lemma map_slice_to {A B : Type} (f : A -> B) (limit : Z) (l : list A) :
  map f (slice_to limit l) = slice_to limit (map f l).
Proof. unfold slice_to. rewrite length_map. destruct (limit <? 0); symmetry; apply firstn_map. Qed.

(** X21. Reordering the catalog does not change the scores that are
    returned: for every limit the sequence of scores is the same, and with
    a limit of at least the catalog size the two lists hold the same
    entries. Only the order among entries of equal score depends on the
    order of the catalog. *)
Theorem catalog_order_only_breaks_ties (catalog catalog' : list Exercise)
    (user : UserProfile) (limit : Z) :
  Permutation catalog catalog' ->
  exists recs recs',
    get_recommendations catalog user limit = Ok recs
    /\ get_recommendations catalog' user limit = Ok recs'
    /\ map score recs = map score recs'
    /\ (Z.of_nat (length catalog) <= limit -> Permutation recs recs').
Proof.
  intros Hp. rewrite !get_recommendations_ranked.
  eexists _, _. split; [reflexivity|]. split; [reflexivity|].
  assert (Hpf : Permutation (filter_pt_relevant catalog) (filter_pt_relevant catalog'))
    by now apply Permutation_filter.
  destruct (ranked_scores_permutation _ _ user Hpf) as [Hperm Hscores].
  split.
  - now rewrite !map_slice_to, Hscores.
  - intros Hfull.
    pose proof (Permutation_length Hp) as Hlen.
    pose proof (ranked_length (filter_pt_relevant catalog) user).
    pose proof (ranked_length (filter_pt_relevant catalog') user).
    pose proof (filter_pt_relevant_length catalog).
    pose proof (filter_pt_relevant_length catalog').
    rewrite !slice_to_nonneg by lia. rewrite !firstn_all2 by lia. exact Hperm.
Qed.

Lemma catalog_order_only_breaks_ties_witness :
  Permutation [ankle_circles; gentle_hamstring_stretch]
              [gentle_hamstring_stretch; ankle_circles]
  /\ exists recs recs',
       get_recommendations [ankle_circles; gentle_hamstring_stretch] calves_profile 1
       = Ok recs
       /\ get_recommendations [gentle_hamstring_stretch; ankle_circles] calves_profile 1
          = Ok recs'
       /\ map score recs = map score recs'.
Proof.
  assert (Hp : Permutation [ankle_circles; gentle_hamstring_stretch]
                           [gentle_hamstring_stretch; ankle_circles])
    by apply perm_swap.
  split; [exact Hp|].
  destruct (catalog_order_only_breaks_ties _ _ calves_profile 1 Hp)
    as (recs & recs' & E & E' & Hs & _).
  exists recs, recs'. auto.
Defined.

(** ** The counts of the responses *)

Lemma stretching_count_test (ex : Exercise) :
  pt_relevant ex = true ->
  (truthy (category ex)
   && str_in (category_lower ex) ["stretching"; "flexibility"; "mobility"])%bool
  = String.eqb (category_lower ex) "stretching".
Proof.
  intros Hpt. apply pt_relevant_category in Hpt.
  destruct (truthy (category ex)) eqn:Ht.
  - destruct Hpt as [Hf|Hin]; [discriminate Hf|].
    unfold pt_categories in Hin. cbn [In] in Hin.
    repeat destruct Hin as [Hin|Hin]; try (rewrite <- Hin; reflexivity). destruct Hin.
  - now rewrite (category_lower_falsy ex Ht).
Qed.

Lemma filter_length_mono {A : Type} (p q : A -> bool) (l : list A) :
  (forall x, In x l -> p x = true -> q x = true) ->
  (length (filter p l) <= length (filter q l))%nat.
Proof.
  induction l as [|x l IH]; intros H; cbn [filter]; [lia|].
  assert (IH' : (length (filter p l) <= length (filter q l))%nat)
    by (apply IH; intros y Hy; apply H; now right).
  destruct (p x) eqn:Hp.
  - rewrite (H x (or_introl eq_refl) Hp). cbn [length]. lia.
  - destruct (q x); cbn [length]; lia.
Qed.

(** X22. The count 'total_stretching_exercises' of the stretching
    response is the number of relevant exercises whose category is
    "stretching": no flexibility or mobility exercise is ever counted. It
    is at most the number of exercises the stretching assembler scores,
    which also takes exercises named "... stretch ..." of other categories,
    and at most 'pt_exercises', itself at most 'exercises_loaded'. *)
Theorem total_stretching_exercises_counts_category_only (catalog : list Exercise) :
  total_stretching_exercises catalog
  = length (filter (fun ex => String.eqb (category_lower ex) "stretching")
                   (filter_pt_relevant catalog))
  /\ (total_stretching_exercises catalog
      <= length (filter is_stretching (filter_pt_relevant catalog)))%nat
  /\ (total_stretching_exercises catalog <= pt_exercises catalog)%nat
  /\ (pt_exercises catalog <= exercises_loaded catalog)%nat.
Proof.
  unfold total_stretching_exercises, pt_exercises, exercises_loaded.
  split; [|split; [|split]].
  - f_equal. apply filter_ext_in. intros ex Hex.
    unfold filter_pt_relevant in Hex. apply filter_In in Hex.
    now apply stretching_count_test.
  - apply filter_length_mono. intros ex _ H.
    apply andb_prop in H. destruct H as [_ H].
    unfold is_stretching. cbv zeta. now rewrite H.
  - apply filter_length_le.
  - apply filter_pt_relevant_length.
Qed.

(** ** Letter case *)

(** X23. The condition is matched without regard to letter case: two
    profiles that differ only in the case of the letters of the condition
    get, for every exercise, the same score, the same label and the same
    warnings. *)
Theorem condition_case_is_ignored (ex : Exercise) (user : UserProfile) (c1 c2 : string) :
  lower c1 = lower c2 ->
  exists r1 r2,
    calculate_recommendation_score ex (with_condition user c1) = Ok r1
    /\ calculate_recommendation_score ex (with_condition user c2) = Ok r2
    /\ score r1 = score r2
    /\ suitability r1 = suitability r2
    /\ warnings r1 = warnings r2.
Proof.
  intros Hc. rewrite !calculate_recommendation_score_expected.
  eexists _, _. split; [reflexivity|]. split; [reflexivity|].
  unfold expected_score, expected_sum, expected_warnings, condition_matches,
    pain_in_range, pain_optimal, mobility_in_range, mobility_optimal,
    pain_warning, mobility_warning.
  cbn [score suitability warnings with_condition pain_level mobility_level condition].
  rewrite Hc. auto.
Qed.

Lemma condition_case_is_ignored_witness :
  lower "Hamstring" = lower "hamstring"
  /\ exists r1 r2,
       calculate_recommendation_score gentle_hamstring_stretch
         (with_condition hamstring_profile "Hamstring") = Ok r1
       /\ calculate_recommendation_score gentle_hamstring_stretch
            (with_condition hamstring_profile "hamstring") = Ok r2
       /\ score r1 = score r2.
Proof.
  assert (H : lower "Hamstring" = lower "hamstring") by reflexivity.
  split; [exact H|].
  destruct (condition_case_is_ignored gentle_hamstring_stretch hamstring_profile
              "Hamstring" "hamstring" H) as (r1 & r2 & E1 & E2 & Hs & _).
  exists r1, r2. auto.
Defined.

(** ** Intense exercises and pain *)

Lemma high_tier_pain_range (ex : Exercise) (user : UserProfile) :
  In (calculate_intensity ex) ["high"; "very-high"] ->
  5 <= pain_level user ->
  pain_in_range ex user = false.
Proof.
  intros Ht Hp. unfold pain_in_range, level_in_range, get_pain_suitability. cbv zeta.
  cbn [In] in Ht. destruct Ht as [<-|[<-|[]]]; cbn; lia.
Qed.

Lemma strength_tier (ex : Exercise) :
  str_in (category_lower ex) ["strength"; "powerlifting"] = true ->
  In (calculate_intensity ex) ["high"; "very-high"].
Proof.
  intros Hc. unfold calculate_intensity. cbv zeta. rewrite Hc.
  destruct (any_word_in _ _); [cbn; auto|].
  destruct (any_word_in _ _); cbn; auto.
Qed.

(** X24. For a user whose pain level is 5 or more, every exercise of
    tier high or very-high, and so every strength or powerlifting
    exercise, is outside its pain range: the result carries the pain
    warning and is never labelled good or excellent. *)
Theorem intense_exercise_is_never_good_from_pain_5 (ex : Exercise) (user : UserProfile) :
  In (calculate_intensity ex) ["high"; "very-high"]
  \/ str_in (category_lower ex) ["strength"; "powerlifting"] = true ->
  5 <= pain_level user ->
  exists r,
    calculate_recommendation_score ex user = Ok r
    /\ In (pain_warning user) (warnings r)
    /\ suitability r <> "good"
    /\ suitability r <> "excellent".
Proof.
  intros Ht Hp.
  assert (Hin : In (calculate_intensity ex) ["high"; "very-high"])
    by (destruct Ht as [Ht|Hc]; [exact Ht | now apply strength_tier]).
  pose proof (high_tier_pain_range ex user Hin Hp) as Hout.
  exists (expected_score ex user).
  split; [apply calculate_recommendation_score_expected|].
  destruct (pain_out_of_range_cases ex user Hout) as [_ Hl].
  split.
  { cbn [warnings expected_score]. unfold expected_warnings. rewrite Hout. cbn. auto. }
  split; intros E; rewrite E in Hl; vm_compute in Hl; congruence.
Qed.

Lemma intense_exercise_is_never_good_from_pain_5_witness :
  (In (calculate_intensity barbell_back_squat) ["high"; "very-high"]
   \/ str_in (category_lower barbell_back_squat) ["strength"; "powerlifting"] = true)
  /\ 5 <= pain_level knee_profile
  /\ exists r,
       calculate_recommendation_score barbell_back_squat knee_profile = Ok r
       /\ suitability r <> "good".
Proof.
  assert (Ht : In (calculate_intensity barbell_back_squat) ["high"; "very-high"]
               \/ str_in (category_lower barbell_back_squat) ["strength"; "powerlifting"]
                  = true) by (right; reflexivity).
  assert (Hp : 5 <= pain_level knee_profile) by (cbn; lia).
  split; [exact Ht|]. split; [exact Hp|].
  destruct (intense_exercise_is_never_good_from_pain_5 barbell_back_squat knee_profile
              Ht Hp) as (r & E & _ & Hg & _).
  exists r. auto.
Defined.

(** ** The tier tables *)

(** X25. The pain table tolerates less pain the more intense the tier,
    and the mobility table asks for more mobility: from a tier to a more
    intense one the pain min and max never increase and the mobility min
    never decreases. *)
Theorem tables_are_monotone_in_the_tier (t1 t2 : string) :
  In t1 five_tiers -> In t2 five_tiers ->
  tier_rank t1 <= tier_rank t2 ->
  dict_int (pain_range t2) "max" <= dict_int (pain_range t1) "max"
  /\ dict_int (pain_range t2) "min" <= dict_int (pain_range t1) "min"
  /\ dict_int (dict_get mobility_intensity_ranges t1 default_range) "min"
     <= dict_int (dict_get mobility_intensity_ranges t2 default_range) "min".
Proof.
  unfold five_tiers. cbn [In].
  intros [<-|[<-|[<-|[<-|[<-|[]]]]]] [<-|[<-|[<-|[<-|[<-|[]]]]]] H;
    vm_compute in H; try (exfalso; apply H; reflexivity);
    vm_compute; repeat split; discriminate.
Qed.

Lemma tables_are_monotone_in_the_tier_witness :
  In "low" five_tiers /\ In "high" five_tiers
  /\ tier_rank "low" <= tier_rank "high"
  /\ dict_int (pain_range "high") "max" <= dict_int (pain_range "low") "max".
Proof.
  assert (H1 : In "low" five_tiers) by (cbn; auto).
  assert (H2 : In "high" five_tiers) by (cbn; auto 6).
  assert (H3 : tier_rank "low" <= tier_rank "high") by (vm_compute; discriminate).
  repeat (split; [assumption|]).
  exact (proj1 (tables_are_monotone_in_the_tier "low" "high" H1 H2 H3)).
Defined.

(** X26. Every pain level from 1 to 10 is an optimal value of the pain
    range of some tier, and lies inside that range. *)
Theorem every_pain_level_is_optimal_for_a_tier (p : Z) :
  1 <= p <= 10 ->
  exists tier,
    In tier five_tiers
    /\ level_in_range (pain_range tier) p = true
    /\ level_optimal (pain_range tier) p = true.
Proof.
  intros H.
  assert (Hp : p = 1 \/ p = 2 \/ p = 3 \/ p = 4 \/ p = 5
               \/ p = 6 \/ p = 7 \/ p = 8 \/ p = 9 \/ p = 10) by lia.
  unfold five_tiers.
  repeat destruct Hp as [->|Hp]; try subst p;
    first [ exists "very-high"; repeat split; [cbn; tauto | reflexivity..]
          | exists "high"; repeat split; [cbn; tauto | reflexivity..]
          | exists "moderate"; repeat split; [cbn; tauto | reflexivity..]
          | exists "low"; repeat split; [cbn; tauto | reflexivity..]
          | exists "very-low"; repeat split; [cbn; tauto | reflexivity..] ].
Qed.

Lemma every_pain_level_is_optimal_for_a_tier_witness :
  1 <= 10 <= 10
  /\ exists tier, In tier five_tiers /\ level_optimal (pain_range tier) 10 = true.
Proof.
  assert (H : 1 <= 10 <= 10) by lia.
  split; [exact H|].
  destruct (every_pain_level_is_optimal_for_a_tier 10 H) as (t & Ht & _ & Ho).
  exists t. auto.
Defined.

(** ** What the scoring reads *)

(** X27. A result depends on the name, the category, the level and the
    muscles of the exercise and on the pain level, the mobility level and
    the condition of the profile, and on nothing else: the goals of the
    profile and the id, force, mechanic, equipment, instructions and
    images of the exercise never change the score, the label, the reasons
    or the warnings. *)
Theorem scoring_ignores_goals_and_other_fields (ex ex' : Exercise)
    (user user' : UserProfile) :
  name ex = name ex' -> category ex = category ex' -> level ex = level ex' ->
  primaryMuscles ex = primaryMuscles ex' ->
  secondaryMuscles ex = secondaryMuscles ex' ->
  pain_level user = pain_level user' ->
  mobility_level user = mobility_level user' ->
  condition user = condition user' ->
  exists r r',
    calculate_recommendation_score ex user = Ok r
    /\ calculate_recommendation_score ex' user' = Ok r'
    /\ score r = score r'
    /\ suitability r = suitability r'
    /\ reasons r = reasons r'
    /\ warnings r = warnings r'.
Proof.
  intros Hn Hc Hl Hp Hs Hpain Hmob Hcond.
  rewrite !calculate_recommendation_score_expected.
  eexists _, _. split; [reflexivity|]. split; [reflexivity|].
  assert (Hcl : category_lower ex = category_lower ex')
    by (unfold category_lower; now rewrite Hc).
  assert (Hi : calculate_intensity ex = calculate_intensity ex')
    by (unfold calculate_intensity; now rewrite Hn, Hcl, Hl).
  assert (Hb : get_therapeutic_benefits ex = get_therapeutic_benefits ex')
    by (unfold get_therapeutic_benefits; now rewrite Hn, Hcl).
  unfold expected_score, expected_sum, expected_reasons, expected_warnings,
    condition_matches, condition_reason, pain_in_range, pain_optimal,
    mobility_in_range, mobility_optimal, pain_warning, mobility_warning,
    get_pain_suitability, get_mobility_suitability.
  cbn [score suitability reasons warnings]. cbv zeta.
  rewrite Hi, Hcl, Hb, Hp, Hs, Hpain, Hmob, Hcond. auto.
Qed.

Lemma scoring_ignores_goals_and_other_fields_witness :
  exists r r',
    calculate_recommendation_score gentle_hamstring_stretch hamstring_profile = Ok r
    /\ calculate_recommendation_score gentle_hamstring_stretch
         hamstring_profile_with_goals = Ok r'
    /\ score r = score r'
    /\ reasons r = reasons r'.
Proof.
  destruct (scoring_ignores_goals_and_other_fields
              gentle_hamstring_stretch gentle_hamstring_stretch
              hamstring_profile hamstring_profile_with_goals
              eq_refl eq_refl eq_refl eq_refl eq_refl eq_refl eq_refl eq_refl)
    as (r & r' & E & E' & Hs & _ & Hr & _).
  exists r, r'. auto.
Defined.

(** * The texts prepared for the vectorizer *)

Lemma append_assoc (a b c : string) : ((a ++ b) ++ c = a ++ (b ++ c))%string.
Proof. induction a as [|x a IH]; cbn [append]; [reflexivity | now rewrite IH]. Qed.

Lemma append_empty_r (a : string) : (a ++ "")%string = a.
Proof. induction a as [|x a IH]; cbn [append]; [reflexivity | now rewrite IH]. Qed.

Lemma prefix_iff (s t : string) :
  String.prefix s t = true <-> exists b, t = (s ++ b)%string.
Proof.
  revert t. induction s as [|x s IH]; intros t.
  - rewrite prefix_empty. split; [|reflexivity]. intros _. now exists t.
  - destruct t as [|y t]; cbn [String.prefix append].
    + split; [discriminate | intros [b H]; discriminate H].
    + destruct (Ascii.ascii_dec x y) as [->|Hne].
      * rewrite IH. split; intros [b H]; exists b; congruence.
      * split; [discriminate | intros [b H]; congruence].
Qed.

(** [contains s t] says that [t] is [a ++ s ++ b] for some [a] and
    [b]. *)
Lemma contains_iff (s t : string) :
  contains s t = true <-> exists a b, t = (a ++ s ++ b)%string.
Proof.
  induction t as [|y t IH]; cbn [contains].
  - destruct (String.prefix s "") eqn:Hp.
    + apply prefix_iff in Hp. destruct Hp as [b Hb].
      split; [|reflexivity]. intros _. exists "", b. exact Hb.
    + split; [discriminate|]. intros (a & b & H).
      destruct a; [|discriminate H]. cbn [append] in H.
      assert (String.prefix s "" = true) by (apply prefix_iff; now exists b).
      congruence.
  - destruct (String.prefix s (String y t)) eqn:Hp.
    + apply prefix_iff in Hp. destruct Hp as [b Hb].
      split; [|reflexivity]. intros _. exists "", b. exact Hb.
    + rewrite IH. split.
      * intros (a & b & ->). now exists (String y a), b.
      * intros (a & b & H). destruct a as [|x a]; cbn [append] in H.
        -- assert (String.prefix s (String y t) = true)
             by (apply prefix_iff; now exists b).
           congruence.
        -- injection H as _ ->. now exists a, b.
Qed.

Lemma contains_trans (s t u : string) :
  contains s t = true -> contains t u = true -> contains s u = true.
Proof.
  rewrite !contains_iff. intros (a & b & ->) (c & d & ->).
  exists (c ++ a)%string, (b ++ d)%string. now rewrite !append_assoc.
Qed.

Lemma contains_refl (s : string) : contains s s = true.
Proof. apply contains_iff. exists "", "". cbn [append]. now rewrite append_empty_r. Qed.

Lemma contains_append_l (s a b : string) :
  contains s a = true -> contains s (a ++ b) = true.
Proof.
  rewrite !contains_iff. intros (c & d & ->).
  exists c, (d ++ b)%string. now rewrite !append_assoc.
Qed.

Lemma contains_append_r (s a b : string) :
  contains s b = true -> contains s (a ++ b) = true.
Proof.
  rewrite !contains_iff. intros (c & d & ->).
  exists (a ++ c)%string, d. now rewrite !append_assoc.
Qed.

Lemma ascii_lower_idempotent (c : ascii) : ascii_lower (ascii_lower c) = ascii_lower c.
Proof. destruct c as [[] [] [] [] [] [] [] []]; reflexivity. Qed.

Lemma lower_idempotent (s : string) : lower (lower s) = lower s.
Proof.
  induction s as [|c s IH]; cbn [lower]; [reflexivity|].
  now rewrite ascii_lower_idempotent, IH.
Qed.

Lemma lower_append (a b : string) : lower (a ++ b) = (lower a ++ lower b)%string.
Proof. induction a as [|c a IH]; cbn [append lower]; [reflexivity | now rewrite IH]. Qed.

Lemma contains_lower (s t : string) :
  contains s t = true -> contains (lower s) (lower t) = true.
Proof.
  rewrite !contains_iff. intros (a & b & ->).
  exists (lower a), (lower b). now rewrite !lower_append.
Qed.

Lemma join_contains (sep : string) (parts : list string) (s : string) :
  In s parts -> contains s (join sep parts) = true.
Proof.
  induction parts as [|x rest IH]; [intros []|].
  intros [->|Hin]; cbn [join]; destruct rest as [|y rest'].
  - apply contains_refl.
  - apply contains_append_l, contains_refl.
  - destruct Hin.
  - apply contains_append_r, contains_append_r. now apply IH.
Qed.

Lemma or_empty_lower (ex : Exercise) : lower (or_empty (category ex)) = category_lower ex.
Proof.
  unfold category_lower, or_empty.
  destruct (category ex) as [[|c s]|]; reflexivity.
Qed.

(** X28. The text prepared for an exercise is in lower case and holds
    the lower-cased name, category, equipment and every muscle and
    instruction; so every keyword the classifier or the benefit rules
    find in the name is also found in the text. There is one text per
    catalog entry. *)
Theorem exercise_text_holds_every_field (ex : Exercise) :
  lower (exercise_text ex) = exercise_text ex
  /\ contains (lower (name ex)) (exercise_text ex) = true
  /\ contains (category_lower ex) (exercise_text ex) = true
  /\ contains (lower (or_empty (equipment ex))) (exercise_text ex) = true
  /\ (forall s,
        In s (primaryMuscles ex ++ secondaryMuscles ex ++ instructions ex) ->
        contains (lower s) (exercise_text ex) = true)
  /\ (forall word,
        contains word (lower (name ex)) = true ->
        contains word (exercise_text ex) = true)
  /\ (forall catalog, length (exercise_texts catalog) = length catalog).
Proof.
  unfold exercise_text. cbv zeta.
  split; [apply lower_idempotent|].
  assert (Hpart : forall s,
             In s [name ex; or_empty (category ex); or_empty (equipment ex);
                   join " " (primaryMuscles ex); join " " (secondaryMuscles ex);
                   join " " (instructions ex)] ->
             forall w, contains w s = true ->
             contains (lower w)
               (lower (join " " [name ex; or_empty (category ex);
                                 or_empty (equipment ex);
                                 join " " (primaryMuscles ex);
                                 join " " (secondaryMuscles ex);
                                 join " " (instructions ex)])) = true).
  { intros s Hs w Hw. apply contains_lower.
    apply (contains_trans w s); [assumption | now apply join_contains]. }
  assert (Hname : contains (lower (name ex))
                    (lower (join " " [name ex; or_empty (category ex);
                                      or_empty (equipment ex);
                                      join " " (primaryMuscles ex);
                                      join " " (secondaryMuscles ex);
                                      join " " (instructions ex)])) = true).
  { apply (Hpart (name ex)); [cbn; auto | apply contains_refl]. }
  split; [exact Hname|].
  split.
  { rewrite <- or_empty_lower.
    apply (Hpart (or_empty (category ex))); [cbn; auto | apply contains_refl]. }
  split.
  { apply (Hpart (or_empty (equipment ex))); [cbn; auto | apply contains_refl]. }
  split.
  { intros s Hs. rewrite !in_app_iff in Hs. destruct Hs as [Hs|[Hs|Hs]].
    - apply (Hpart (join " " (primaryMuscles ex))); [cbn; auto 6 | now apply join_contains].
    - apply (Hpart (join " " (secondaryMuscles ex))); [cbn; auto 6 | now apply join_contains].
    - apply (Hpart (join " " (instructions ex))); [cbn; auto 7 | now apply join_contains]. }
  split.
  { intros w Hw. now apply (contains_trans w (lower (name ex))). }
  intros catalog. unfold exercise_texts. apply length_map.
Qed.

(** * Levels outside the scale *)



